(** * A blogging application on Express, Passport and Mongoose: app.js

    The request handlers of [app.js] are embedded as programs of a small
    state-and-exception monad over the document store (users, posts), the
    upload directory (blobs) and a chronological trace of the effects a
    handler performs.  The collaborators the source only calls (bcrypt,
    express-validator's [isEmail], [ObjectId.isValid]) are parameters, and
    what a request cannot control (a rejected store call, the identifier a
    new document receives, the clock) is an oracle. *)

From Stdlib Require Import ZArith Sorted Ascii.
From stdpp Require Import base strings list gmap.

Local Open Scope string_scope.

(** ** Data model *)

(** Values of the few JavaScript types the handlers test for truthiness. *)
Inductive jsval :=
| JUndefined
| JBool (b : bool)
| JStr (s : string).

Definition truthy (v : jsval) : bool :=
  match v with
  | JUndefined => false
  | JBool b => b
  | JStr s => negb (String.eqb s "")
  end.

(** An object literal handed to a model constructor. *)
Definition rawdoc := list (string * jsval).

Fixpoint raw_get (o : rawdoc) (k : string) : jsval :=
  match o with
  | [] => JUndefined
  | (k', v) :: o' => if String.eqb k' k then v else raw_get o' k
  end.

Definition as_string (v : jsval) : string :=
  match v with
  | JStr s => s
  | JBool true => "true"
  | JBool false => "false"
  | JUndefined => ""
  end.

(** [userSchema]: email and password, both String; [_id] is added by the
    store. *)
Module User.
Record t := mk { _id : string; email : string; password : string }.

(** [new User(obj)]: the schema keeps its own paths and drops every other
    key of the literal. *)
Definition new (id : string) (o : rawdoc) : t :=
  {| _id := id;
     email := as_string (raw_get o "email");
     password := as_string (raw_get o "password") |}.

(** Property read [user.k] on a document: only the schema's paths exist. *)
Definition get (u : t) (k : string) : jsval :=
  if String.eqb k "_id" then JStr (_id u)
  else if String.eqb k "email" then JStr (email u)
  else if String.eqb k "password" then JStr (password u)
  else JUndefined.
End User.

(** [postSchema]; [createdAt] is a Date, here milliseconds since the epoch. *)
Module Post.
Record t := mk {
  _id : string;
  title : string;
  filename : string;
  body : string;
  authorId : string;
  username : string;
  createdAt : Z
}.

Definition set_title (p : t) (s : string) : t :=
  mk (_id p) s (filename p) (body p) (authorId p) (username p) (createdAt p).
Definition set_body (p : t) (s : string) : t :=
  mk (_id p) (title p) (filename p) s (authorId p) (username p) (createdAt p).
Definition set_filename (p : t) (s : string) : t :=
  mk (_id p) (title p) s (body p) (authorId p) (username p) (createdAt p).
End Post.

(** The two collections and the upload directory [public/uploads/]. *)
Record Store := mkStore {
  users : list User.t;
  posts : list Post.t;
  blobs : gset string
}.

Inductive Err :=
| StoreError
| TypeError
| FsError
| CastError.

(** What a handler does besides changing the store, in order. *)
Inductive Event :=
| EvUserFindOne (email : string)
| EvUserFindById (id : string)
| EvUserSave (u : User.t)
| EvPostFind
| EvPostFindById (id : string)
| EvPostSave (p : Post.t)
| EvPostDeleteOne (id : string)
| EvUpload (name : string)
| EvUnlink (name : string)
| EvUnlinkError (name : string)
| EvCookie (name value : string)
| EvFlash (kind msg : string)
| EvLogin (uid : string)
| EvLogout
| EvLog (e : Err)
| EvUncaught (e : Err).

Record Machine := mkMachine {
  store : Store;
  events : list Event
}.

(** What becomes of a request.  [Hang] is a request the handler finishes
    without answering; [NextError] is an error handed to Express's error
    handler with [next(err)]; [Unhandled] is an exception no [try] or
    [.catch] of the handler caught; [Crashed] is a request cut short by the
    death of the process. *)
Inductive Response :=
| Render (view : string) (model : list Post.t)
| Redirect (location : string)
| Send (status : Z) (text : string)
| NextError (e : Err)
| Hang
| Unhandled (e : Err)
| Crashed (e : Err).

(** The fields of [req] the handlers read.  [user] is what
    [passport.session] restored; [file] is the name multer generated for the
    uploaded file, when there is one. *)
Record Request := mkRequest {
  url : string;
  user : option User.t;
  params_id : string;
  query_sortby : option string;
  body_email : string;
  body_password : string;
  body_title : string;
  body_body : string;
  file : option string;
  cookies_redUrl : option string
}.

(** External collaborators. *)
Record Collab := mkCollab {
  bcrypt_hash : string -> string;
  bcrypt_compare : string -> string -> bool;
  isEmail : string -> bool;
  ObjectId_isValid : string -> bool
}.

(** What the circumstances of one request decide: whether the store rejects
    a query (the connection is lost, the driver cannot cast an identifier),
    a write or a delete, whether the session can be written, the identifier
    [new Model] draws and the time [new Date()] reads. *)
Record Oracle := mkOracle {
  find_fails : bool;
  save_fails : bool;
  delete_fails : bool;
  login_fails : bool;
  fresh_id : string;
  now : Z
}.

(** ** The handler monad: state, and exceptions that keep the state *)

(** [Throw] is an exception on its way to the nearest [try]; [Die] is an
    exception thrown where no [try] of the handler can see it, in a callback
    the event loop runs: Node ends the process. *)
Inductive outcome (A : Type) :=
| Ok (a : A)
| Throw (e : Err)
| Die (e : Err).
Arguments Ok {A} a.
Arguments Throw {A} e.
Arguments Die {A} e.

Definition M (A : Type) : Type := Machine -> outcome A * Machine.

Definition ret {A} (a : A) : M A := fun m => (Ok a, m).

Definition bind {A B} (c : M A) (k : A -> M B) : M B :=
  fun m =>
    match c m with
    | (Ok a, m') => k a m'
    | (Throw e, m') => (Throw e, m')
    | (Die e, m') => (Die e, m')
    end.

Definition throw {A} (e : Err) : M A := fun m => (Throw e, m).

Definition die {A} (e : Err) : M A := fun m => (Die e, m).

Definition try_catch {A} (c : M A) (h : Err -> M A) : M A :=
  fun m =>
    match c m with
    | (Ok a, m') => (Ok a, m')
    | (Throw e, m') => h e m'
    | (Die e, m') => (Die e, m')
    end.

Definition emit (e : Event) : M unit :=
  fun m => (Ok tt, mkMachine (store m) (events m ++ [e])).

Definition get_store : M Store := fun m => (Ok (store m), m).

Definition put_store (s : Store) : M unit :=
  fun m => (Ok tt, mkMachine s (events m)).

#[export] Instance M_ret : MRet M := @ret.
#[export] Instance M_bind : MBind M := fun A B k c => bind c k.

Definition console_error (e : Err) : M unit := emit (EvLog e).

Definition console_log (e : Err) : M unit := emit (EvLog e).

(** ** Requests and middleware *)

(** [req.isAuthenticated()]: a user was restored from the session. *)
Definition isAuthenticated (req : Request) : bool :=
  match user req with
  | Some _ => true
  | None => false
  end.

(** Reading a property of [req.user] or of [req.file]: a TypeError when the
    object is undefined. *)
Definition req_user (req : Request) : M User.t :=
  match user req with
  | Some u => mret u
  | None => throw TypeError
  end.

Definition req_file (req : Request) : M string :=
  match file req with
  | Some f => mret f
  | None => throw TypeError
  end.

Definition with_user (req : Request) (u : User.t) : Request :=
  mkRequest (url req) (Some u) (params_id req) (query_sortby req)
    (body_email req) (body_password req) (body_title req) (body_body req)
    (file req) (cookies_redUrl req).

(** A middleware answers the request or passes it on ([None] is [next()]). *)
Definition Middleware : Type := Request -> M (option Response).
Definition Handler : Type := Request -> M Response.

Definition next : M (option Response) := ret None.
Definition respond (r : Response) : M (option Response) := ret (Some r).

Fixpoint route (mws : list Middleware) (h : Handler) (req : Request) : M Response :=
  match mws with
  | [] => h req
  | mw :: rest =>
      r ← mw req;
      match r with
      | Some resp => mret resp
      | None => route rest h req
      end
  end.

Definition isLoggedin : Middleware := fun req =>
  if isAuthenticated req then next else respond (Redirect "/login").

Definition isLoggedOut : Middleware := fun req =>
  if negb (isAuthenticated req) then next else respond (Redirect "/dashboard").

Definition storeOriginalUrl : Middleware := fun req =>
  (if negb (isAuthenticated req) then emit (EvCookie "redUrl" (url req))
   else mret tt);;
  next.

(** [upload.single(field)]: multer writes the uploaded file, when the form
    has one, under its generated name before the handler runs. *)
Definition upload_single : Middleware := fun req =>
  match file req with
  | Some name =>
      emit (EvUpload name);;
      s ← get_store;
      put_store (mkStore (users s) (posts s) (blobs s ∪ {[name]}));;
      next
  | None => next
  end.

(** [fs.unlink(path, cb)] on a file of the upload directory.  The callback
    receives the error when the file is not there. *)
Definition fs_unlink (name : string) (cb : option Err -> M unit) : M unit :=
  s ← get_store;
  if bool_decide (name ∈ blobs s) then
    emit (EvUnlink name);;
    put_store (mkStore (users s) (posts s) (blobs s ∖ {[name]}));;
    cb None
  else
    emit (EvUnlinkError name);;
    cb (Some FsError).

(** [if (req.cookies.redUrl)]: set and not the empty string. *)
Definition redirect_target (req : Request) : string :=
  match cookies_redUrl req with
  | Some u => if truthy (JStr u) then u else "/dashboard"
  | None => "/dashboard"
  end.

(** [s.split('@')[0]] *)
Fixpoint before_at (s : string) : string :=
  match s with
  | EmptyString => EmptyString
  | String c s' => if Ascii.eqb c "@"%char then EmptyString else String c (before_at s')
  end.

(** The filters [{ email }], [{ _id: id }] and [{ authorId: id }]. *)
Definition by_email (e : string) (u : User.t) : bool := String.eqb (User.email u) e.
Definition by_id (id : string) (p : Post.t) : bool := String.eqb (Post._id p) id.
Definition by_author (id : string) (p : Post.t) : bool := String.eqb (Post.authorId p) id.

Definition has_user_id (id : string) (l : list User.t) : bool :=
  existsb (fun u => String.eqb (User._id u) id) l.

Definition has_post_id (id : string) (l : list Post.t) : bool :=
  existsb (by_id id) l.

(** [.sort({ createdAt: dir })]: ascending for a positive [dir], descending
    otherwise. *)
Definition before (dir : Z) (a b : Post.t) : bool :=
  if (0 <? dir)%Z then (Post.createdAt a <=? Post.createdAt b)%Z
  else (Post.createdAt b <=? Post.createdAt a)%Z.

Fixpoint insert_post (dir : Z) (p : Post.t) (l : list Post.t) : list Post.t :=
  match l with
  | [] => [p]
  | q :: l' => if before dir p q then p :: q :: l' else q :: insert_post dir p l'
  end.

Fixpoint sort_posts (dir : Z) (l : list Post.t) : list Post.t :=
  match l with
  | [] => []
  | p :: l' => insert_post dir p (sort_posts dir l')
  end.

Fixpoint replace_post (p : Post.t) (l : list Post.t) : list Post.t :=
  match l with
  | [] => []
  | q :: l' =>
      if by_id (Post._id p) q then p :: l' else q :: replace_post p l'
  end.

Fixpoint remove_post (id : string) (l : list Post.t) : list Post.t :=
  match l with
  | [] => []
  | q :: l' => if by_id id q then l' else q :: remove_post id l'
  end.

(** [validationResult(req)] after the [validateEmail] chain. *)
Definition validationResult (isEmail : string -> bool) (req : Request) : list string :=
  (if isEmail (body_email req) then [] else ["Please enter a valid email address"])
  ++ (if (6 <=? String.length (body_password req))%nat then []
      else ["Password must be atleast 6 letters long"]).

Definition isEmpty (errors : list string) : bool :=
  match errors with
  | [] => true
  | _ :: _ => false
  end.

(** [req.flash(kind, msgs)] with an array: every message is queued. *)
Fixpoint req_flash (kind : string) (msgs : list string) : M unit :=
  match msgs with
  | [] => mret tt
  | msg :: rest => emit (EvFlash kind msg);; req_flash kind rest
  end.

(** The chain itself only records its findings on the request. *)
Definition validateEmail : Middleware := fun _ => next.

Inductive AuthResult :=
| done_error (e : Err)
| done_fail (message : string)
| done_user (u : User.t).

Inductive Deserialized :=
| done_restore_error (e : Err)
| done_restored (user : option User.t).

(** ** The models' queries and the routes *)

Section App.

Variable C : Collab.
Variable O : Oracle.

(** [User.findOne({ email })]: the first user with that email, or null. *)
Definition User_findOne (e : string) : M (option User.t) :=
  emit (EvUserFindOne e);;
  if find_fails O then throw StoreError
  else
    s ← get_store;
    mret (List.find (by_email e) (users s)).

(** [newUser.save()] of a document made by [new User]: an insert, refused
    when the identifier is taken. *)
Definition User_save (u : User.t) : M unit :=
  emit (EvUserSave u);;
  if save_fails O then throw StoreError
  else
    s ← get_store;
    if has_user_id (User._id u) (users s) then throw StoreError
    else put_store (mkStore (users s ++ [u]) (posts s) (blobs s)).

(** [Post.find(filter)], with [.sort({ createdAt: dir })] when [dir] is
    given. *)
Definition Post_find (flt : Post.t -> bool) (dir : option Z) : M (list Post.t) :=
  emit EvPostFind;;
  if find_fails O then throw StoreError
  else
    s ← get_store;
    let found := List.filter flt (posts s) in
    mret (match dir with
          | Some d => sort_posts d found
          | None => found
          end).

(** Whether mongoose can cast [id] to an ObjectId: what [ObjectId.isValid]
    accepts.  The [_id] of a stored document is an ObjectId, so the string
    that names a stored post always casts. *)
Definition castable (s : Store) (id : string) : bool :=
  ObjectId_isValid C id || has_post_id id (posts s).

(** [Post.findById(id)] and [Post.findOne({ _id: id })].  The filter is cast
    before the query is sent: an [id] that is no ObjectId rejects with a
    CastError. *)
Definition Post_findById (id : string) : M (option Post.t) :=
  emit (EvPostFindById id);;
  s ← get_store;
  if negb (castable s id) then throw CastError
  else if find_fails O then throw StoreError
  else mret (List.find (by_id id) (posts s)).

Definition Post_findOne (id : string) : M (option Post.t) := Post_findById id.

(** [post.save()].  [isNew] is the flag mongoose keeps on the document: set
    by [new Post] (the save inserts), cleared on a document a query returned
    (the save updates the stored document of that identifier). *)
Definition Post_save (isNew : bool) (p : Post.t) : M unit :=
  emit (EvPostSave p);;
  if save_fails O then throw StoreError
  else
    s ← get_store;
    if isNew then
      if has_post_id (Post._id p) (posts s) then throw StoreError
      else put_store (mkStore (users s) (posts s ++ [p]) (blobs s))
    else
      if has_post_id (Post._id p) (posts s)
      then put_store (mkStore (users s) (replace_post p (posts s)) (blobs s))
      else throw StoreError.

(** [Post.deleteOne({ _id: id })] *)
Definition Post_deleteOne (id : string) : M unit :=
  emit (EvPostDeleteOne id);;
  if delete_fails O then throw StoreError
  else
    s ← get_store;
    put_store (mkStore (users s) (remove_post id (posts s)) (blobs s)).

(** [User.findById(id)] on the identifier a session holds, which
    [serializeUser] took from a stored user. *)
Definition User_findById (id : string) : M (option User.t) :=
  emit (EvUserFindById id);;
  if find_fails O then throw StoreError
  else
    s ← get_store;
    mret (List.find (fun u => String.eqb (User._id u) id) (users s)).

(** [passport.deserializeUser]; its result is the call of [done] it makes. *)
Definition deserializeUser (id : string) : M Deserialized :=
  try_catch
    (user ← User_findById id;
     mret (done_restored user))
    (fun err => mret (done_restore_error err)).

(** [req.login(user, cb)] *)
Definition req_login (u : User.t) : M (option Err) :=
  if login_fails O then mret (Some StoreError)
  else emit (EvLogin (User._id u));; mret None.

(** The verify callback of the local strategy; its result is the call of
    [done] it makes. *)
Definition authenticate (email password : string) : M AuthResult :=
  try_catch
    (user ← User_findOne email;
     match user with
     | None => mret (done_fail "Incorrect email or password")
     | Some user =>
         let isPasswordValid := bcrypt_compare C password (User.password user) in
         if negb isPasswordValid then mret (done_fail "Incorrect email or password")
         else mret (done_user user)
     end)
    (fun error => mret (done_error error)).

(** [passport.authenticate('local', { failureRedirect: '/login',
    failureFlash: true })].  The strategy refuses a request without email or
    password before it calls the verify callback. *)
Definition passport_authenticate (k : Handler) : Handler := fun req =>
  if String.eqb (body_email req) "" || String.eqb (body_password req) "" then
    emit (EvFlash "error" "Missing credentials");;
    mret (Redirect "/login")
  else
    r ← authenticate (body_email req) (body_password req);
    match r with
    | done_error e => mret (NextError e)
    | done_fail message =>
        emit (EvFlash "error" message);;
        mret (Redirect "/login")
    | done_user u =>
        err ← req_login u;
        match err with
        | Some e => mret (NextError e)
        | None => k (with_user req u)
        end
    end.

Definition is_old (req : Request) : bool :=
  match query_sortby req with
  | Some v => String.eqb v "old"
  | None => false
  end.

(** [app.get('/')] *)
Definition get_index : Handler :=
  route [storeOriginalUrl] (fun req =>
    if is_old req then
      try_catch
        (posts ← Post_find (fun _ => true) (Some 1%Z);
         mret (Render "index" posts))
        (fun err =>
           console_error err;;
           mret (Send 500 "Internal Server Error"))
    else
      try_catch
        (posts ← Post_find (fun _ => true) (Some (-1)%Z);
         mret (Render "index" posts))
        (fun err =>
           console_error err;;
           mret (Send 500 "Internal Server Error"))).

(** [app.get('/signup')] *)
Definition get_signup : Handler :=
  route [isLoggedOut] (fun _ => mret (Render "signup" [])).

(** The literal [app.post('/signup')] hands to [new User]. *)
Definition signup_doc (req : Request) : rawdoc :=
  [("email", JStr (body_email req));
   ("password", JStr (bcrypt_hash C (body_password req)));
   ("admin", JBool false)].

(** [app.post('/signup')] *)
Definition post_signup : Handler :=
  route [validateEmail; isLoggedOut] (fun req =>
    existingUser ← User_findOne (body_email req);
    let errors := validationResult (isEmail C) req in
    if negb (isEmpty errors) then
      let errorMessages := errors in
      req_flash "error" errorMessages;;
      mret (Redirect "/signup")
    else
      match existingUser with
      | Some _ => mret (Send 200 "Email is already in use.")
      | None =>
          let newUser := User.new (fresh_id O) (signup_doc req) in
          User_save newUser;;
          err ← req_login newUser;
          match err with
          | Some e => console_log e;; mret Hang
          | None => mret (Redirect (redirect_target req))
          end
      end).

(** [app.get('/login')] *)
Definition get_login : Handler :=
  route [isLoggedOut] (fun _ => mret (Render "login" [])).

(** [app.post('/login')] *)
Definition post_login : Handler :=
  route [validateEmail]
    (passport_authenticate (fun req => mret (Redirect (redirect_target req)))).

(** [app.get('/logout')], with a [req.logOut] that succeeds. *)
Definition get_logout : Handler := fun _ =>
  emit EvLogout;;
  mret (Redirect "/").

(** [app.post('/post')] *)
Definition post_post : Handler :=
  route [isLoggedin; upload_single] (fun req =>
    try_catch
      (let title := body_title req in
       let body := body_body req in
       u ← req_user req;
       let username := before_at (User.email u) in
       f ← req_file req;
       let post :=
         Post.mk (fresh_id O) title f body (User._id u) username (now O) in
       Post_save true post;;
       emit (EvFlash "success" "Post created successfully.");;
       mret (Redirect "/dashboard"))
      (fun error =>
         console_error error;;
         emit (EvFlash "error" "Internal Server Error");;
         mret (Send 500 "Internal Server Error"))).

(** [app.get('/myposts')] *)
Definition get_myposts : Handler :=
  route [storeOriginalUrl; isLoggedin] (fun req =>
    u ← req_user req;
    try_catch
      (post ← Post_find (by_author (User._id u)) None;
       mret (Render "dirupload" post))
      (fun err =>
         console_error err;;
         mret Hang)).

(** [app.get('/dashboard')] *)
Definition get_dashboard : Handler :=
  route [isLoggedin] (fun _ => mret (Render "admin" [])).

(** [app.get('/delete/:id')].  The unlink callback runs outside the
    handler's [try]: when the unlink reports an error, its [throw err] is
    caught by nobody and the process dies, the request unanswered. *)
Definition get_delete : Handler :=
  route [isLoggedin] (fun req =>
    try_catch
      (let postId := params_id req in
       u ← req_user req;
       let userId := User._id u in
       post ← Post_findById postId;
       match post with
       | None => mret (Send 404 "Post not found")
       | Some post =>
           if negb (String.eqb (Post.authorId post) userId)
              && negb (truthy (User.get u "isAdmin"))
           then mret (Send 403 "You are not authorized to delete this post")
           else
             fs_unlink (Post.filename post)
               (fun err =>
                  match err with
                  | Some e => emit (EvUncaught e);; die e
                  | None => mret tt
                  end);;
             Post_deleteOne postId;;
             mret (Redirect "/myposts")
       end)
      (fun error =>
         console_log error;;
         mret (Send 500 "Internal Server Error"))).

(** [app.get('/posts/:id')] *)
Definition get_post : Handler := fun req =>
  try_catch
    (let postId := params_id req in
     if negb (ObjectId_isValid C postId) then mret (Send 400 "Invalid post ID")
     else
       post ← Post_findOne postId;
       match post with
       | None => mret (Send 404 "Post not found")
       | Some post => mret (Render "post" [post])
       end)
    (fun err =>
       console_error err;;
       mret (Send 500 "Internal Server Error")).

(** [app.get('/posts/user/:id')] *)
Definition get_posts_user : Handler := fun req =>
  try_catch
    (posts ← Post_find (by_author (params_id req)) None;
     mret (Render "index" posts))
    (fun err =>
       console_error err;;
       mret (Send 500 "Internal Server Error")).

(** [app.get('/post/edit/:postId')] *)
Definition get_post_edit : Handler :=
  route [storeOriginalUrl; isLoggedin] (fun req =>
    try_catch
      (post ← Post_findById (params_id req);
       match post with
       | None => mret (Send 404 "Post not found")
       | Some post =>
           u ← req_user req;
           if negb (String.eqb (Post.authorId post) (User._id u))
           then mret (Send 403 "You are not authorized to edit this post")
           else mret (Render "edit" [post])
       end)
      (fun err =>
         console_error err;;
         mret (Send 500 "Internal Server Error"))).

(** [app.post('/post/edit/:postId')] *)
Definition post_post_edit : Handler :=
  route [upload_single] (fun req =>
    try_catch
      (let postId := params_id req in
       post ← Post_findById postId;
       match post with
       | None => mret (Send 404 "Post not found")
       | Some post =>
           u ← req_user req;
           if negb (String.eqb (Post.authorId post) (User._id u))
           then mret (Send 403 "You are not authorized to edit this post")
           else
             let oldFilename := Post.filename post in
             let post := Post.set_title post (body_title req) in
             let post := Post.set_body post (body_body req) in
             let post :=
               match file req with
               | Some f => Post.set_filename post f
               | None => post
               end in
             Post_save false post;;
             (if bool_decide (is_Some (file req)) && truthy (JStr oldFilename)
              then fs_unlink oldFilename (fun _ => mret tt)
              else mret tt);;
             mret (Redirect ("/post/edit/" ++ postId))
       end)
      (fun err =>
         console_error err;;
         mret (Send 500 "Internal Server Error"))).

(** The routing table. *)
Inductive Route :=
| GET_index
| GET_signup
| POST_signup
| GET_login
| POST_login
| GET_logout
| POST_post
| GET_myposts
| GET_dashboard
| GET_delete
| GET_post
| GET_posts_user
| GET_post_edit
| POST_post_edit.

Definition handler_of (r : Route) : Handler :=
  match r with
  | GET_index => get_index
  | GET_signup => get_signup
  | POST_signup => post_signup
  | GET_login => get_login
  | POST_login => post_login
  | GET_logout => get_logout
  | POST_post => post_post
  | GET_myposts => get_myposts
  | GET_dashboard => get_dashboard
  | GET_delete => get_delete
  | GET_post => get_post
  | GET_posts_user => get_posts_user
  | GET_post_edit => get_post_edit
  | POST_post_edit => post_post_edit
  end.

(** One request against the application: what becomes of it, and the
    machine afterwards. *)
Definition serve (r : Route) (req : Request) (s : Store) : Response * Machine :=
  match handler_of r req (mkMachine s []) with
  | (Ok resp, m) => (resp, m)
  | (Throw e, m) => (Unhandled e, m)
  | (Die e, m) => (Crashed e, m)
  end.

End App.

(** ** The browser: the session and the pending-redirect cookie *)

Record Browser := mkBrowser {
  jar_redUrl : option string;
  session : option string
}.

(** What a response's effects leave in the browser. *)
Definition deliver1 (b : Browser) (e : Event) : Browser :=
  match e with
  | EvCookie name value =>
      if String.eqb name "redUrl" then mkBrowser (Some value) (session b) else b
  | EvLogin uid => mkBrowser (jar_redUrl b) (Some uid)
  | EvLogout => mkBrowser (jar_redUrl b) None
  | _ => b
  end.

Definition deliver (b : Browser) (evs : list Event) : Browser :=
  fold_left deliver1 evs b.

(** [passport.session()], in front of every route: the user of the
    browser's session is looked up again for each request. *)
Definition passport_session (O : Oracle) (b : Browser) (s : Store) : Deserialized :=
  match session b with
  | None => done_restored None
  | Some id =>
      match deserializeUser O id (mkMachine s []) with
      | (Ok d, _) => d
      | (Throw e, _) | (Die e, _) => done_restore_error e
      end
  end.

(** The request as the handlers see it when browser [b], restored as [who],
    sends [req]. *)
Definition sent_by (b : Browser) (who : option User.t) (req : Request) : Request :=
  mkRequest (url req) who
    (params_id req) (query_sortby req)
    (body_email req) (body_password req) (body_title req) (body_body req)
    (file req) (jar_redUrl b).

(** One round trip.  When the session cannot be restored the error goes to
    Express's error handler and no route runs. *)
Definition visit (C : Collab) (O : Oracle) (r : Route) (req : Request)
    (b : Browser) (s : Store) : Response * Browser * Store :=
  match passport_session O b s with
  | done_restore_error e => (NextError e, b, s)
  | done_restored who =>
      let '(reply, m) := serve C O r (sent_by b who req) s in
      (reply, deliver b (events m), store m)
  end.

(** ** Vocabulary of the properties *)

(** The order [.sort({ createdAt: dir })] asks for. *)
Definition ordered (dir : Z) (a b : Post.t) : Prop :=
  if (0 <? dir)%Z then (Post.createdAt a <= Post.createdAt b)%Z
  else (Post.createdAt b <= Post.createdAt a)%Z.

Definition oldest_first (l : list Post.t) : Prop :=
  StronglySorted (fun a b => (Post.createdAt a <= Post.createdAt b)%Z) l.

Definition newest_first (l : list Post.t) : Prop :=
  StronglySorted (fun a b => (Post.createdAt b <= Post.createdAt a)%Z) l.

(** No two stored users share an email. *)
Definition unique_emails (s : Store) : Prop := NoDup (map User.email (users s)).

(** The stores the application gets to from an empty one, one request after
    the other. *)
Inductive reachable (C : Collab) : Store -> Prop :=
| reachable_empty : reachable C (mkStore [] [] ∅)
| reachable_serve O r req s :
    reachable C s -> reachable C (store (serve C O r req s).2).

(** ** Sample data *)

Fixpoint has_at (s : string) : bool :=
  match s with
  | EmptyString => false
  | String c s' => Ascii.eqb c "@"%char || has_at s'
  end.

Definition sample_collab : Collab :=
  mkCollab
    (fun p => "$2b$10$" ++ p)
    (fun p h => String.eqb h ("$2b$10$" ++ p))
    has_at
    (fun id => Nat.eqb (String.length id) 24).

Definition calm : Oracle := mkOracle false false false false "65f000000000000000000009" 4000.
Definition find_down : Oracle := mkOracle true false false false "65f000000000000000000009" 4000.
Definition save_down : Oracle := mkOracle false true false false "65f000000000000000000009" 4000.

Definition alice : User.t := User.mk "u-alice" "alice@example.com" "$2b$10$wonderland".
Definition bob : User.t := User.mk "u-bob" "bob@example.com" "$2b$10$builder".

Definition post1 : Post.t := Post.mk "p1" "First" "one.png" "oldest" "u-alice" "alice" 1000.
Definition post2 : Post.t := Post.mk "p2" "Second" "two.png" "middle" "u-bob" "bob" 2000.
Definition post3 : Post.t := Post.mk "p3" "Third" "three.png" "newest" "u-alice" "alice" 3000.

Definition sample_store : Store :=
  mkStore [alice; bob] [post2; post1; post3] {[ "one.png"; "two.png"; "three.png" ]}.

Definition nobody : Browser := mkBrowser None None.

(** A request with nothing but its target. *)
Definition plain (u : string) (who : option User.t) (id : string) : Request :=
  mkRequest u who id None "" "" "" "" None None.

Definition form (u : string) (who : option User.t) (email password : string) : Request :=
  mkRequest u who "" None email password "" "" None None.

Definition edit_form (who : option User.t) (id title body : string) (f : option string) : Request :=
  mkRequest ("/post/edit/" ++ id) who id None "" "" title body f None.

(** ** The upload's name and the session's key *)

(** [s.split(sep)] for a one-character separator: never an empty array. *)
Fixpoint split_on (sep : ascii) (s : string) : list string :=
  match s with
  | EmptyString => [EmptyString]
  | String c s' =>
      if Ascii.eqb c sep then EmptyString :: split_on sep s'
      else
        match split_on sep s' with
        | [] => [String c EmptyString]
        | piece :: rest => String c piece :: rest
        end
  end.

(** [file.originalname.split('.').pop()] *)
Definition extension (originalname : string) : string :=
  List.last (split_on "."%char originalname) EmptyString.

(** The [filename] callback of the disk storage; [uuid] is what [uuidv4()]
    returned. *)
Definition multer_filename (uuid originalname : string) : string :=
  let extension := extension originalname in
  let name := uuid ++ "." ++ extension in
  name.

Fixpoint has_char (c : ascii) (s : string) : bool :=
  match s with
  | EmptyString => false
  | String d s' => Ascii.eqb d c || has_char c s'
  end.

(** [passport.serializeUser]: the session keeps [user.id]. *)
Definition serializeUser (u : User.t) : string := User._id u.

(** No two stored documents of a collection share an identifier. *)
Definition unique_ids (s : Store) : Prop :=
  NoDup (map User._id (users s)) /\ NoDup (map Post._id (posts s)).

(** A store call a handler can issue. *)
Definition is_store_call (e : Event) : bool :=
  match e with
  | EvUserFindOne _ | EvUserFindById _ | EvUserSave _ | EvPostFind | EvPostFindById _
  | EvPostSave _ | EvPostDeleteOne _ | EvUpload _ | EvUnlink _
  | EvUnlinkError _ => true
  | _ => false
  end.

Definition is_cookie (e : Event) : bool :=
  match e with
  | EvCookie _ _ => true
  | _ => false
  end.

(** The routes behind [isLoggedin], and those behind [isLoggedOut]. *)
Definition gated (r : Route) : bool :=
  match r with
  | POST_post | GET_myposts | GET_dashboard | GET_delete | GET_post_edit => true
  | _ => false
  end.

Definition guests_only (r : Route) : bool :=
  match r with
  | GET_signup | POST_signup | GET_login => true
  | _ => false
  end.

(** The routes whose handlers issue no write. *)
Definition read_only (r : Route) : bool :=
  match r with
  | GET_index | GET_signup | GET_login | POST_login | GET_logout | GET_myposts
  | GET_dashboard | GET_post | GET_posts_user | GET_post_edit => true
  | _ => false
  end.

(** * Properties *)

Ltac unfold_routes :=
  unfold visit, passport_session, deserializeUser, serve, handler_of, get_index, get_signup, post_signup, get_login,
    post_login, get_logout, post_post, get_myposts, get_dashboard, get_delete,
    get_post, get_posts_user, get_post_edit, post_post_edit,
    passport_authenticate, authenticate.

Ltac unfold_monad :=
  unfold route, isLoggedin, isLoggedOut, storeOriginalUrl, upload_single,
    validateEmail, Post_findOne, Post_findById, Post_find, Post_save,
    Post_deleteOne, User_findOne, User_findById, User_save, req_login, req_user,
    req_file, die,
    fs_unlink, console_error, console_log, next, respond, isAuthenticated,
    mbind, mret, M_bind, M_ret, bind, ret, throw, try_catch, emit, get_store,
    put_store.

(** Runs a handler symbolically as far as the hypotheses allow. *)
Ltac run := unfold_routes; unfold_monad; simpl.

(** ** The feed's order *)

Lemma before_ordered dir a b : before dir a b = true -> ordered dir a b.
Proof. unfold before, ordered. destruct (0 <? dir)%Z; lia. Qed.

Lemma before_false_ordered dir a b : before dir a b = false -> ordered dir b a.
Proof. unfold before, ordered. destruct (0 <? dir)%Z; lia. Qed.

Lemma ordered_trans dir a b c : ordered dir a b -> ordered dir b c -> ordered dir a c.
Proof. unfold ordered. destruct (0 <? dir)%Z; lia. Qed.

Lemma insert_post_perm dir p l : Permutation (insert_post dir p l) (p :: l).
Proof.
  induction l as [|q l IH]; simpl.
  - reflexivity.
  - destruct (before dir p q).
    + reflexivity.
    + rewrite IH. apply perm_swap.
Qed.

Lemma sort_posts_perm dir l : Permutation (sort_posts dir l) l.
Proof.
  induction l as [|p l IH]; simpl.
  - reflexivity.
  - rewrite insert_post_perm. now constructor.
Qed.

Lemma insert_post_sorted dir p l :
  StronglySorted (ordered dir) l -> StronglySorted (ordered dir) (insert_post dir p l).
Proof.
  induction 1 as [|q l Hs IH Hq]; simpl.
  - repeat constructor.
  - destruct (before dir p q) eqn:E.
    + apply before_ordered in E.
      constructor; [now constructor|].
      constructor; [exact E|].
      eapply Forall_impl; [exact Hq|].
      intros r Hr. now apply (ordered_trans dir p q r).
    + apply before_false_ordered in E.
      constructor; [exact IH|].
      rewrite (insert_post_perm dir p l). now constructor.
Qed.

Lemma sort_posts_sorted dir l : StronglySorted (ordered dir) (sort_posts dir l).
Proof.
  induction l as [|p l IH]; simpl.
  - constructor.
  - now apply insert_post_sorted.
Qed.

Lemma filter_everything {A} (l : list A) : List.filter (fun _ => true) l = l.
Proof. induction l; simpl; congruence. Qed.

Lemma is_old_spec req : is_old req = true <-> query_sortby req = Some "old".
Proof.
  unfold is_old. destruct (query_sortby req) as [v|].
  - rewrite String.eqb_eq. split; congruence.
  - split; discriminate.
Qed.

(** What GET / answers while the store responds. *)
Lemma get_index_runs C O s req :
  find_fails O = false ->
  (serve C O GET_index req s).1
  = Render "index" (sort_posts (if is_old req then 1 else (-1)) (posts s)).
Proof.
  intros Hf. run.
  destruct (user req); simpl; destruct (is_old req); rewrite Hf; simpl;
    now rewrite filter_everything.
Qed.

(** C6: GET / renders every stored post, oldest first when the query has
    [sortby=old], newest first for any other value and when the parameter
    is absent. *)
Theorem feed_order C O s req :
  find_fails O = false ->
  exists ps,
    (serve C O GET_index req s).1 = Render "index" ps
    /\ Permutation ps (posts s)
    /\ (query_sortby req = Some "old" -> oldest_first ps)
    /\ (query_sortby req <> Some "old" -> newest_first ps).
Proof.
  intros Hf. eexists. split; [now apply get_index_runs|].
  split; [apply sort_posts_perm|].
  pose proof (is_old_spec req) as Hold.
  destruct (is_old req); split; intros Hq.
  - apply (sort_posts_sorted 1).
  - exfalso. apply Hq, Hold. reflexivity.
  - apply Hold in Hq. discriminate.
  - apply (sort_posts_sorted (-1)).
Qed.

Lemma feed_order_witness :
  find_fails calm = false
  /\ exists ps,
       (serve sample_collab calm GET_index
          (mkRequest "/?sortby=old" None "" (Some "old") "" "" "" "" None None)
          sample_store).1 = Render "index" ps
       /\ Permutation ps (posts sample_store)
       /\ oldest_first ps.
Proof.
  split; [reflexivity|].
  destruct (feed_order sample_collab calm sample_store
              (mkRequest "/?sortby=old" None "" (Some "old") "" "" "" "" None None)
              eq_refl) as (ps & Hr & Hp & Hold & _).
  exists ps. auto.
Defined.

(** The feed of the specification's example: posts created at
    [1000 < 2000 < 3000]. *)
Example feed_oldest_first_example :
  (serve sample_collab calm GET_index
     (mkRequest "/?sortby=old" None "" (Some "old") "" "" "" "" None None)
     sample_store).1 = Render "index" [post1; post2; post3].
Proof. reflexivity. Qed.

Example feed_newest_first_example :
  (serve sample_collab calm GET_index
     (mkRequest "/?sortby=new" None "" (Some "new") "" "" "" "" None None)
     sample_store).1 = Render "index" [post3; post2; post1]
  /\ (serve sample_collab calm GET_index (plain "/" None "") sample_store).1
     = Render "index" [post3; post2; post1].
Proof. split; reflexivity. Qed.

(** ** Identifiers that cast *)

Lemma castable_valid C s id : ObjectId_isValid C id = true -> castable C s id = true.
Proof. intros Hv. unfold castable. now rewrite Hv. Qed.

Lemma castable_found C s id p :
  List.find (by_id id) (posts s) = Some p -> castable C s id = true.
Proof.
  intros Hp. apply find_some in Hp as [Hin Hid]. unfold castable, has_post_id.
  apply orb_true_intro. right. apply existsb_exists. now exists p.
Qed.

Lemma castable_missing C s id :
  List.find (by_id id) (posts s) = None -> castable C s id = ObjectId_isValid C id.
Proof.
  intros Hp. unfold castable, has_post_id.
  destruct (existsb (by_id id) (posts s)) eqn:E; [|apply orb_false_r].
  apply existsb_exists in E as (p & Hin & Hid).
  pose proof (find_none _ _ Hp p Hin). congruence.
Qed.

Ltac case_castable :=
  match goal with
  | |- context [castable ?c ?s ?i] => destruct (castable c s i)
  end.

(** ** Viewing one post *)

(** C7: GET /posts/:id answers 400 to an identifier that is not well formed,
    and does so before any query is sent to the store (the machine is
    untouched and its trace is empty); a well-formed identifier that matches
    no post is answered 404. *)
Theorem post_view_malformed_id C O s req :
  (ObjectId_isValid C (params_id req) = false ->
   serve C O GET_post req s = (Send 400 "Invalid post ID", mkMachine s []))
  /\ (ObjectId_isValid C (params_id req) = true ->
      find_fails O = false ->
      List.find (by_id (params_id req)) (posts s) = None ->
      serve C O GET_post req s
      = (Send 404 "Post not found", mkMachine s [EvPostFindById (params_id req)])).
Proof.
  split.
  - intros Hv. run. now rewrite Hv.
  - intros Hv Hf Hnone. run. rewrite Hv. simpl.
    rewrite (castable_valid C s _ Hv), Hf. simpl. now rewrite Hnone.
Qed.

Lemma post_view_malformed_id_witness :
  serve sample_collab calm GET_post (plain "/posts/p1" None "p1") sample_store
  = (Send 400 "Invalid post ID", mkMachine sample_store [])
  /\ serve sample_collab calm GET_post
       (plain "/posts/65f0000000000000000000aa" None "65f0000000000000000000aa")
       sample_store
     = (Send 404 "Post not found",
        mkMachine sample_store [EvPostFindById "65f0000000000000000000aa"]).
Proof.
  split.
  - apply (proj1 (post_view_malformed_id sample_collab calm sample_store
                    (plain "/posts/p1" None "p1"))).
    reflexivity.
  - apply (proj2 (post_view_malformed_id sample_collab calm sample_store
                    (plain "/posts/65f0000000000000000000aa" None
                       "65f0000000000000000000aa"))); reflexivity.
Defined.

(** A malformed identifier is turned away even while the store is failing. *)
Example post_view_malformed_id_store_down :
  serve sample_collab find_down GET_post (plain "/posts/p1" None "p1") sample_store
  = (Send 400 "Invalid post ID", mkMachine sample_store []).
Proof. reflexivity. Qed.

(** ** Deleting a post *)

(** GET /delete/:id with a session, while the lookup succeeds: a
    well-formed identifier without a post, or somebody else's post. *)
Lemma delete_turned_away C O s req u :
  user req = Some u ->
  find_fails O = false ->
  match List.find (by_id (params_id req)) (posts s) with
  | None =>
      ObjectId_isValid C (params_id req) = true ->
      serve C O GET_delete req s
      = (Send 404 "Post not found", mkMachine s [EvPostFindById (params_id req)])
  | Some p =>
      Post.authorId p <> User._id u ->
      serve C O GET_delete req s
      = (Send 403 "You are not authorized to delete this post",
         mkMachine s [EvPostFindById (params_id req)])
  end.
Proof.
  intros Hu Hf.
  destruct (List.find (by_id (params_id req)) (posts s)) as [p|] eqn:Hp.
  - intros Hne. run. rewrite Hu. simpl.
    rewrite (castable_found C s _ p Hp), Hf. simpl. rewrite Hp.
    apply String.eqb_neq in Hne. now rewrite Hne.
  - intros Hv. run. rewrite Hu. simpl.
    rewrite (castable_valid C s _ Hv), Hf. simpl. now rewrite Hp.
Qed.

(** An identifier that does not cast never reaches the [!post] test: the
    query rejects and the [catch] answers 500. *)
Lemma delete_malformed_id C O s req u :
  user req = Some u ->
  castable C s (params_id req) = false ->
  serve C O GET_delete req s
  = (Send 500 "Internal Server Error",
     mkMachine s [EvPostFindById (params_id req); EvLog CastError]).
Proof. intros Hu Hc. run. rewrite Hu. simpl. now rewrite Hc. Qed.




(** The author's own request goes through: blob and record are removed. *)
Example delete_by_author_example :
  serve sample_collab calm GET_delete (plain "/delete/p1" (Some alice) "p1") sample_store
  = (Redirect "/myposts",
     mkMachine (mkStore [alice; bob] [post2; post3] {[ "two.png"; "three.png" ]})
       [EvPostFindById "p1"; EvUnlink "one.png"; EvPostDeleteOne "p1"]).
Proof. vm_compute. reflexivity. Qed.

(** ** Submitting an edit without a session *)

(** POST /post/edit/:postId has no [isLoggedin] in front of it: whoever
    sends the form reaches the handler, which queries the store first and
    only then reads [req.user]. *)
Lemma post_edit_has_no_gate C O s req p :
  user req = None ->
  file req = None ->
  find_fails O = false ->
  List.find (by_id (params_id req)) (posts s) = Some p ->
  serve C O POST_post_edit req s
  = (Send 500 "Internal Server Error",
     mkMachine s [EvPostFindById (params_id req); EvLog TypeError]).
Proof.
  intros Hu Hfile Hf Hp. run. rewrite Hfile. simpl.
  rewrite (castable_found C s _ p Hp), Hf. simpl. rewrite Hp, Hu. reflexivity.
Qed.

Lemma post_edit_no_gate_missing_post C O s req :
  user req = None ->
  file req = None ->
  find_fails O = false ->
  ObjectId_isValid C (params_id req) = true ->
  List.find (by_id (params_id req)) (posts s) = None ->
  serve C O POST_post_edit req s
  = (Send 404 "Post not found", mkMachine s [EvPostFindById (params_id req)]).
Proof.
  intros Hu Hfile Hf Hv Hp. run. rewrite Hfile. simpl.
  rewrite (castable_valid C s _ Hv), Hf. simpl. now rewrite Hp.
Qed.

(** The form of the same path is guarded: without a session GET
    /post/edit/:postId redirects to the login page and sends no query. *)
Lemma get_edit_is_gated C O s req :
  user req = None ->
  serve C O GET_post_edit req s
  = (Redirect "/login", mkMachine s [EvCookie "redUrl" (url req)]).
Proof. intros Hu. run. now rewrite Hu. Qed.

(** What does hold of the submission: a missing post is answered 404, and a
    logged-in caller who is not the author is answered 403 with every post
    as it was. *)
Lemma post_edit_missing_or_forbidden C O s req u :
  user req = Some u ->
  find_fails O = false ->
  match List.find (by_id (params_id req)) (posts s) with
  | None =>
      ObjectId_isValid C (params_id req) = true ->
      (serve C O POST_post_edit req s).1 = Send 404 "Post not found"
      /\ posts (store (serve C O POST_post_edit req s).2) = posts s
  | Some p =>
      Post.authorId p <> User._id u ->
      (serve C O POST_post_edit req s).1
      = Send 403 "You are not authorized to edit this post"
      /\ posts (store (serve C O POST_post_edit req s).2) = posts s
  end.
Proof.
  intros Hu Hf.
  destruct (List.find (by_id (params_id req)) (posts s)) as [p|] eqn:Hp.
  - intros Hne. apply String.eqb_neq in Hne.
    pose proof (castable_found C s _ p Hp) as Hc. unfold castable in Hc.
    run. destruct (file req); simpl; unfold castable; simpl; rewrite Hc, Hf; simpl;
      rewrite Hp, Hu; simpl; rewrite Hne; simpl; auto.
  - intros Hv.
    run. destruct (file req); simpl; unfold castable; simpl; rewrite Hv, Hf; simpl;
      rewrite Hp; simpl; auto.
Qed.

(** C1: an unauthenticated POST /post/edit/p1 for a stored post is not
    redirected to the login page: the handler runs, the post is looked up,
    reading [req.user._id] throws, and the answer is 500. *)
Theorem post_edit_unauthenticated :
  serve sample_collab calm POST_post_edit
    (edit_form None "p1" "Changed" "by a stranger" None) sample_store
  = (Send 500 "Internal Server Error",
     mkMachine sample_store [EvPostFindById "p1"; EvLog TypeError]).
Proof. reflexivity. Qed.

(** The same visitor asking for the form is sent to the login page. *)
Example get_edit_unauthenticated_example :
  serve sample_collab calm GET_post_edit (plain "/post/edit/p1" None "p1") sample_store
  = (Redirect "/login", mkMachine sample_store [EvCookie "redUrl" "/post/edit/p1"]).
Proof. reflexivity. Qed.

(** ** Store failures *)

(** GET /myposts only logs a failed query; nothing is sent to the client. *)
Lemma myposts_failure_hangs C O s req u :
  user req = Some u ->
  find_fails O = true ->
  serve C O GET_myposts req s = (Hang, mkMachine s [EvPostFind; EvLog StoreError]).
Proof. intros Hu Hf. run. rewrite Hu. simpl. now rewrite Hf. Qed.

(** The feed, its sibling, answers the same failure with a 500. *)
Lemma index_failure_answered C O s req :
  find_fails O = true ->
  (serve C O GET_index req s).1 = Send 500 "Internal Server Error".
Proof.
  intros Hf. run. destruct (user req); simpl; destruct (is_old req); now rewrite Hf.
Qed.

(** C9: with the store refusing queries, a logged-in GET /myposts gets no
    response at all: the failure is logged and the request is left
    unanswered. *)
Theorem myposts_store_failure_unanswered :
  serve sample_collab find_down GET_myposts (plain "/myposts" (Some alice) "") sample_store
  = (Hang, mkMachine sample_store [EvPostFind; EvLog StoreError]).
Proof. reflexivity. Qed.

(** The signup handler awaits the store outside any [try]. *)
Example signup_store_failure_example :
  (serve sample_collab find_down POST_signup
     (form "/signup" None "carol@example.com" "longenough") sample_store).1
  = Unhandled StoreError.
Proof. reflexivity. Qed.

(** ** Logging in *)

Lemma find_unique_email (l : list User.t) (u : User.t) :
  NoDup (map User.email l) -> In u l ->
  List.find (by_email (User.email u)) l = Some u.
Proof.
  induction l as [|v l IH]; simpl; [contradiction|].
  intros Hnd [->|Hin].
  - unfold by_email. now rewrite String.eqb_refl.
  - apply NoDup_cons in Hnd as [Hv Hnd].
    destruct (by_email (User.email u) v) eqn:E.
    + exfalso. apply Hv. apply String.eqb_eq in E. rewrite E.
      apply list_elem_of_In, in_map, Hin.
    + now apply IH.
Qed.

Lemma find_by_email_sound (l : list User.t) (e : string) (u : User.t) :
  List.find (by_email e) l = Some u -> In u l /\ User.email u = e.
Proof.
  intros H. apply find_some in H as [Hin He].
  split; [exact Hin|]. now apply String.eqb_eq.
Qed.

Lemma find_by_email_none (l : list User.t) (e : string) :
  List.find (by_email e) l = None -> ~ In e (map User.email l).
Proof.
  intros H Hin. apply in_map_iff in Hin as (u & He & Hu).
  pose proof (find_none _ _ H u Hu) as Hn.
  unfold by_email in Hn. rewrite He, String.eqb_refl in Hn. discriminate.
Qed.

(** The verify callback, case by case. *)
Lemma authenticate_runs C O m email password :
  find_fails O = false ->
  (authenticate C O email password m).1
  = Ok (match List.find (by_email email) (users (store m)) with
        | None => done_fail "Incorrect email or password"
        | Some u =>
            if bcrypt_compare C password (User.password u) then done_user u
            else done_fail "Incorrect email or password"
        end).
Proof.
  intros Hf. run. rewrite Hf. simpl.
  destruct (List.find (by_email email) (users (store m))) as [u|]; [|reflexivity].
  now destruct (bcrypt_compare C password (User.password u)).
Qed.

(** C3: while the lookup succeeds, [authenticate] fails with one and the
    same message when no user has the email and when the password does not
    match, and POST /login answers both with the same redirect and the same
    flashed message; when the password matches the user found (any stored
    user with that email, emails being unique), it succeeds with that user. *)
Theorem authenticate_no_enumeration C O s req :
  find_fails O = false ->
  let email := body_email req in
  let password := body_password req in
  let r := (authenticate C O email password (mkMachine s [])).1 in
  let refused :=
    (Redirect "/login",
     mkMachine s [EvUserFindOne email; EvFlash "error" "Incorrect email or password"]) in
  (List.find (by_email email) (users s) = None ->
   r = Ok (done_fail "Incorrect email or password")
   /\ (email <> "" -> password <> "" -> serve C O POST_login req s = refused))
  /\ (forall u,
        List.find (by_email email) (users s) = Some u ->
        bcrypt_compare C password (User.password u) = false ->
        r = Ok (done_fail "Incorrect email or password")
        /\ (email <> "" -> password <> "" -> serve C O POST_login req s = refused))
  /\ (forall u,
        List.find (by_email email) (users s) = Some u ->
        bcrypt_compare C password (User.password u) = true ->
        r = Ok (done_user u))
  /\ (forall u,
        unique_emails s -> In u (users s) -> User.email u = email ->
        bcrypt_compare C password (User.password u) = true ->
        r = Ok (done_user u)).
Proof.
  intros Hf email password r refused.
  assert (Hr : r = Ok (match List.find (by_email email) (users s) with
                       | None => done_fail "Incorrect email or password"
                       | Some u =>
                           if bcrypt_compare C password (User.password u)
                           then done_user u
                           else done_fail "Incorrect email or password"
                       end)) by (now apply authenticate_runs).
  assert (Hroute :
    email <> "" -> password <> "" ->
    r = Ok (done_fail "Incorrect email or password") ->
    serve C O POST_login req s = refused).
  { intros He Hp Hfail. subst r refused.
    apply String.eqb_neq in He, Hp.
    revert Hfail. run. fold email password. rewrite He, Hp, Hf. simpl.
    destruct (List.find (by_email email) (users s)) as [u|]; [|reflexivity].
    destruct (bcrypt_compare C password (User.password u)); simpl;
      [discriminate | reflexivity]. }
  split; [|split; [|split]].
  - intros Hnone.
    assert (Hfail : r = Ok (done_fail "Incorrect email or password"))
      by (now rewrite Hr, Hnone).
    split; [exact Hfail | intros He Hp; now apply Hroute].
  - intros u Hu Hc.
    assert (Hfail : r = Ok (done_fail "Incorrect email or password"))
      by (now rewrite Hr, Hu, Hc).
    split; [exact Hfail | intros He Hp; now apply Hroute].
  - intros u Hu Hc. now rewrite Hr, Hu, Hc.
  - intros u Hnd Hin He Hc. rewrite Hr, <- He.
    now rewrite (find_unique_email _ u Hnd Hin), Hc.
Qed.

Lemma authenticate_no_enumeration_witness :
  (authenticate sample_collab calm "zed@example.com" "wonderland"
     (mkMachine sample_store [])).1
  = Ok (done_fail "Incorrect email or password")
  /\ (authenticate sample_collab calm "alice@example.com" "looking-glass"
        (mkMachine sample_store [])).1
     = Ok (done_fail "Incorrect email or password")
  /\ (authenticate sample_collab calm "alice@example.com" "wonderland"
        (mkMachine sample_store [])).1
     = Ok (done_user alice).
Proof.
  split; [|split].
  - apply (authenticate_no_enumeration sample_collab calm sample_store
             (form "/login" None "zed@example.com" "wonderland") eq_refl).
    reflexivity.
  - apply (proj1 (proj2 (authenticate_no_enumeration sample_collab calm sample_store
                           (form "/login" None "alice@example.com" "looking-glass")
                           eq_refl)) alice); reflexivity.
  - apply (proj2 (proj2 (proj2 (authenticate_no_enumeration sample_collab calm
                                  sample_store
                                  (form "/login" None "alice@example.com" "wonderland")
                                  eq_refl))) alice).
    + apply (bool_decide_unpack (unique_emails sample_store)). reflexivity.
    + simpl. auto.
    + reflexivity.
    + reflexivity.
Defined.

(** The two refusals as the client sees them. *)
Example login_refusals_example :
  serve sample_collab calm POST_login
    (form "/login" None "alice@example.com" "looking-glass") sample_store
  = (Redirect "/login",
     mkMachine sample_store
       [EvUserFindOne "alice@example.com";
        EvFlash "error" "Incorrect email or password"])
  /\ (serve sample_collab calm POST_login
        (form "/login" None "zed@example.com" "looking-glass") sample_store).1
     = Redirect "/login"
  /\ events (serve sample_collab calm POST_login
               (form "/login" None "zed@example.com" "looking-glass") sample_store).2
     = [EvUserFindOne "zed@example.com";
        EvFlash "error" "Incorrect email or password"].
Proof. repeat split. Qed.

(** ** Signing up with a taken email *)

Lemma req_flash_runs kind msgs m :
  req_flash kind msgs m
  = (Ok tt, mkMachine (store m) (events m ++ map (EvFlash kind) msgs)).
Proof.
  revert m. induction msgs as [|msg rest IH]; intros m; simpl.
  - rewrite app_nil_r. now destruct m.
  - unfold_monad. simpl. rewrite IH. simpl. now rewrite <- app_assoc.
Qed.

Lemma find_by_email_some (l : list User.t) (e : string) :
  In e (map User.email l) -> exists u, List.find (by_email e) l = Some u.
Proof.
  intros Hin.
  destruct (List.find (by_email e) l) as [u|] eqn:Hfind; [now exists u|].
  now apply find_by_email_none in Hfind.
Qed.

(** C4, as the handler has it: a POST /signup whose email is already stored
    never changes the store, whatever else happens; sent without a session,
    while the lookup succeeds, it is answered with the plain text "Email is
    already in use." when email and password pass validation, and when they
    do not, every validation message is flashed and the answer is the
    redirect to /signup. *)
Theorem signup_taken_email C O s req :
  In (body_email req) (map User.email (users s)) ->
  store (serve C O POST_signup req s).2 = s
  /\ (user req = None -> find_fails O = false ->
      validationResult (isEmail C) req = [] ->
      serve C O POST_signup req s
      = (Send 200 "Email is already in use.",
         mkMachine s [EvUserFindOne (body_email req)]))
  /\ (user req = None -> find_fails O = false ->
      validationResult (isEmail C) req <> [] ->
      serve C O POST_signup req s
      = (Redirect "/signup",
         mkMachine s
           (EvUserFindOne (body_email req)
            :: map (EvFlash "error") (validationResult (isEmail C) req)))).
Proof.
  intros Htaken. apply find_by_email_some in Htaken as [v Hv].
  split; [|split].
  - run. destruct (user req); simpl; [reflexivity|].
    destruct (find_fails O); simpl; [reflexivity|].
    rewrite Hv.
    destruct (validationResult (isEmail C) req) as [|msg rest]; simpl; [reflexivity|].
    unfold_monad. simpl. now rewrite req_flash_runs.
  - intros Hu Hf Hvalid. run. rewrite Hu. simpl. rewrite Hf. simpl.
    now rewrite Hv, Hvalid.
  - intros Hu Hf Hinvalid. run. rewrite Hu. simpl. rewrite Hf. simpl.
    destruct (validationResult (isEmail C) req) as [|msg rest]; [congruence|].
    simpl. unfold_monad. simpl. rewrite req_flash_runs. simpl. now destruct s.
Qed.

Lemma signup_taken_email_witness :
  In "alice@example.com" (map User.email (users sample_store))
  /\ serve sample_collab calm POST_signup
       (form "/signup" None "alice@example.com" "wonderland") sample_store
     = (Send 200 "Email is already in use.",
        mkMachine sample_store [EvUserFindOne "alice@example.com"])
  /\ serve sample_collab calm POST_signup
       (form "/signup" None "alice@example.com" "abc") sample_store
     = (Redirect "/signup",
        mkMachine sample_store
          [EvUserFindOne "alice@example.com";
           EvFlash "error" "Password must be atleast 6 letters long"]).
Proof.
  assert (Htaken : In "alice@example.com" (map User.email (users sample_store)))
    by (simpl; auto).
  split; [exact Htaken|]. split.
  - apply (proj1 (proj2 (signup_taken_email sample_collab calm sample_store
                           (form "/signup" None "alice@example.com" "wonderland")
                           Htaken))); reflexivity.
  - apply (proj2 (proj2 (signup_taken_email sample_collab calm sample_store
                           (form "/signup" None "alice@example.com" "abc")
                           Htaken))); [reflexivity | reflexivity | discriminate].
Defined.

(** C4 as stated fails: the email is stored, the password has three
    letters, and the answer is the validation redirect, not the plain
    message. *)
Lemma signup_taken_email_short_password :
  In "alice@example.com" (map User.email (users sample_store))
  /\ serve sample_collab calm POST_signup
       (form "/signup" None "alice@example.com" "abc") sample_store
     = (Redirect "/signup",
        mkMachine sample_store
          [EvUserFindOne "alice@example.com";
           EvFlash "error" "Password must be atleast 6 letters long"])
  /\ (serve sample_collab calm POST_signup
        (form "/signup" None "alice@example.com" "abc") sample_store).1
     <> Send 200 "Email is already in use.".
Proof.
  split; [simpl; auto|]. split; [reflexivity|]. discriminate.
Qed.

(** A fresh email, for comparison, creates the account and logs it in. *)
Example signup_fresh_email_example :
  serve sample_collab calm POST_signup
    (form "/signup" None "carol@example.com" "rabbit-hole") sample_store
  = (Redirect "/dashboard",
     mkMachine
       (mkStore
          [alice; bob;
           User.mk "65f000000000000000000009" "carol@example.com" "$2b$10$rabbit-hole"]
          (posts sample_store) (blobs sample_store))
       [EvUserFindOne "carol@example.com";
        EvUserSave
          (User.mk "65f000000000000000000009" "carol@example.com" "$2b$10$rabbit-hole");
        EvLogin "65f000000000000000000009"]).
Proof. reflexivity. Qed.

(** ** Submitting an edit as the author *)

Lemma find_by_id_sound l id p : List.find (by_id id) l = Some p -> In p l /\ Post._id p = id.
Proof.
  intros H. apply find_some in H as [Hin He]. split; [exact Hin|]. now apply String.eqb_eq.
Qed.

Lemma find_has_post_id l id p : List.find (by_id id) l = Some p -> has_post_id id l = true.
Proof.
  intros H. apply find_some in H as [Hin He]. unfold has_post_id.
  apply existsb_exists. now exists p.
Qed.

Lemma find_replace_post l id p p' :
  List.find (by_id id) l = Some p -> Post._id p' = id ->
  List.find (by_id id) (replace_post p' l) = Some p'.
Proof.
  intros Hfind Hid. induction l as [|q l IH]; simpl in *; [discriminate|].
  rewrite Hid. destruct (by_id id q) eqn:E.
  - simpl. unfold by_id at 1. now rewrite Hid, String.eqb_refl.
  - simpl. rewrite E. now apply IH.
Qed.

(** C5: when the author's edit of a stored post is saved, the answer is the
    redirect to the edit page and the stored post has the submitted title
    and body and the [createdAt], [username] and [authorId] it had; without
    an upload its [filename] is unchanged and the blobs are untouched; with
    an upload its [filename] is the new blob's name and the unlink of the
    old blob comes after the save in the trace.  When the save fails, the
    answer is 500, the posts are as they were and nothing is unlinked. *)
Theorem edit_by_author C O s req u p :
  user req = Some u ->
  find_fails O = false ->
  List.find (by_id (params_id req)) (posts s) = Some p ->
  Post.authorId p = User._id u ->
  let id := params_id req in
  let old := Post.filename p in
  let out := serve C O POST_post_edit req s in
  (save_fails O = false ->
   out.1 = Redirect ("/post/edit/" ++ id)
   /\ exists q,
        List.find (by_id id) (posts (store out.2)) = Some q
        /\ posts (store out.2) = replace_post q (posts s)
        /\ Post.title q = body_title req
        /\ Post.body q = body_body req
        /\ Post.createdAt q = Post.createdAt p
        /\ Post.username q = Post.username p
        /\ Post.authorId q = Post.authorId p
        /\ match file req with
           | None =>
               Post.filename q = old
               /\ blobs (store out.2) = blobs s
               /\ events out.2 = [EvPostFindById id; EvPostSave q]
           | Some f =>
               Post.filename q = f
               /\ blobs (store out.2)
                  = (if truthy (JStr old) then (blobs s ∪ {[f]}) ∖ {[old]}
                     else blobs s ∪ {[f]})
               /\ events out.2
                  = ([EvUpload f; EvPostFindById id; EvPostSave q]
                    ++ (if truthy (JStr old)
                        then [if bool_decide (old ∈ blobs s ∪ {[f]})
                              then EvUnlink old else EvUnlinkError old]
                        else []))%list
           end)
  /\ (save_fails O = true ->
      out.1 = Send 500 "Internal Server Error"
      /\ posts (store out.2) = posts s
      /\ blobs s ⊆ blobs (store out.2)
      /\ forall name, ~ In (EvUnlink name) (events out.2)).
Proof.
  intros Hu Hf Hp Ha id old out.
  pose proof (find_has_post_id _ _ _ Hp) as Hhas.
  destruct (find_by_id_sound _ _ _ Hp) as [Hin Hid].
  assert (Hauth : String.eqb (Post.authorId p) (User._id u) = true)
    by (now apply String.eqb_eq).
  pose proof (castable_found C s _ p Hp) as Hcast. unfold castable in Hcast.
  split; intros Hs.
  - subst out. run. destruct (file req) as [f|] eqn:Hfile; simpl.
    + unfold castable. simpl. rewrite Hcast, Hf. simpl. rewrite Hp, Hu. simpl. rewrite Hauth. simpl.
      rewrite Hs. simpl. rewrite Hid, Hhas. simpl. fold old.
      destruct (negb (old =? "")) eqn:Hold; simpl.
      * destruct (bool_decide (old ∈ blobs s ∪ {[f]})) eqn:Hblob; simpl.
        -- split; [reflexivity|]. eexists. split; [|repeat split].
           now apply (find_replace_post _ _ p).
        -- split; [reflexivity|]. eexists. split; [|repeat split].
           ++ now apply (find_replace_post _ _ p).
           ++ apply bool_decide_eq_false in Hblob.
              symmetry. now apply difference_disjoint_L, disjoint_singleton_r.
      * split; [reflexivity|]. eexists. split; [|repeat split].
        now apply (find_replace_post _ _ p).
    + unfold castable. simpl. rewrite Hcast, Hf. simpl. rewrite Hp, Hu. simpl. rewrite Hauth. simpl.
      rewrite Hs. simpl. rewrite Hid, Hhas. simpl.
      split; [reflexivity|]. eexists. split; [|repeat split].
      now apply (find_replace_post _ _ p).
  - subst out. run. destruct (file req) as [f|] eqn:Hfile; simpl.
    + unfold castable. simpl. rewrite Hcast, Hf. simpl. rewrite Hp, Hu. simpl. rewrite Hauth. simpl.
      rewrite Hs. simpl. repeat split; [apply union_subseteq_l|].
      intros name Hname. simpl in Hname. intuition discriminate.
    + unfold castable. simpl. rewrite Hcast, Hf. simpl. rewrite Hp, Hu. simpl. rewrite Hauth. simpl.
      rewrite Hs. simpl. repeat split; [reflexivity|].
      intros name Hname. simpl in Hname. intuition discriminate.
Qed.

Lemma edit_by_author_witness :
  (serve sample_collab calm POST_post_edit
     (edit_form (Some alice) "p1" "First, revised" "still the oldest" (Some "new.png"))
     sample_store).1
  = Redirect "/post/edit/p1"
  /\ (serve sample_collab save_down POST_post_edit
        (edit_form (Some alice) "p1" "First, revised" "still the oldest" (Some "new.png"))
        sample_store).1
     = Send 500 "Internal Server Error".
Proof.
  split.
  - apply (proj1 (edit_by_author sample_collab calm sample_store
                    (edit_form (Some alice) "p1" "First, revised" "still the oldest"
                       (Some "new.png"))
                    alice post1 eq_refl eq_refl eq_refl eq_refl)).
    reflexivity.
  - apply (proj2 (edit_by_author sample_collab save_down sample_store
                    (edit_form (Some alice) "p1" "First, revised" "still the oldest"
                       (Some "new.png"))
                    alice post1 eq_refl eq_refl eq_refl eq_refl)).
    reflexivity.
Defined.

(** The two kinds of edit on the sample store. *)
Example edit_without_image_example :
  serve sample_collab calm POST_post_edit
    (edit_form (Some alice) "p1" "First, revised" "still the oldest" None) sample_store
  = (Redirect "/post/edit/p1",
     mkMachine
       (mkStore [alice; bob]
          [post2;
           Post.mk "p1" "First, revised" "one.png" "still the oldest" "u-alice" "alice" 1000;
           post3]
          (blobs sample_store))
       [EvPostFindById "p1";
        EvPostSave
          (Post.mk "p1" "First, revised" "one.png" "still the oldest" "u-alice" "alice"
             1000)]).
Proof. reflexivity. Qed.

Example edit_with_image_example :
  serve sample_collab calm POST_post_edit
    (edit_form (Some alice) "p1" "First, revised" "still the oldest" (Some "new.png"))
    sample_store
  = (Redirect "/post/edit/p1",
     mkMachine
       (mkStore [alice; bob]
          [post2;
           Post.mk "p1" "First, revised" "new.png" "still the oldest" "u-alice" "alice" 1000;
           post3]
          {[ "two.png"; "three.png"; "new.png" ]})
       [EvUpload "new.png";
        EvPostFindById "p1";
        EvPostSave
          (Post.mk "p1" "First, revised" "new.png" "still the oldest" "u-alice" "alice"
             1000);
        EvUnlink "one.png"]).
Proof. vm_compute. reflexivity. Qed.

(** ** Coming back after the login detour *)

(** What a successful login answers, whoever sends it. *)
Lemma login_success C O s b login u :
  find_fails O = false ->
  login_fails O = false ->
  body_email login <> "" ->
  body_password login <> "" ->
  List.find (by_email (body_email login)) (users s) = Some u ->
  bcrypt_compare C (body_password login) (User.password u) = true ->
  visit C O POST_login login b s
  = (Redirect (match jar_redUrl b with
               | Some target => if negb (String.eqb target "") then target else "/dashboard"
               | None => "/dashboard"
               end),
     mkBrowser (jar_redUrl b) (Some (User._id u)),
     s).
Proof.
  intros Hf Hl He Hp Hu Hc. apply String.eqb_neq in He, Hp.
  run. rewrite He, Hp, Hf. simpl. rewrite Hu, Hc. simpl. rewrite Hl. simpl.
  unfold redirect_target. simpl. now destruct (session b).
Qed.

(** C8: GET /myposts without a session is redirected to /login and leaves
    "/myposts" in the redUrl cookie; the successful login that follows is
    redirected to /myposts, and a successful login from a browser without
    the cookie is redirected to /dashboard. *)
Theorem login_returns_to_myposts C O1 O2 s b req login u :
  session b = None ->
  url req = "/myposts" ->
  find_fails O2 = false ->
  login_fails O2 = false ->
  body_email login <> "" ->
  body_password login <> "" ->
  List.find (by_email (body_email login)) (users s) = Some u ->
  bcrypt_compare C (body_password login) (User.password u) = true ->
  let first := visit C O1 GET_myposts req b s in
  first.1.1 = Redirect "/login"
  /\ jar_redUrl first.1.2 = Some "/myposts"
  /\ session first.1.2 = None
  /\ first.2 = s
  /\ (visit C O2 POST_login login first.1.2 first.2).1.1 = Redirect "/myposts"
  /\ (forall b0, jar_redUrl b0 = None ->
        (visit C O2 POST_login login b0 s).1.1 = Redirect "/dashboard").
Proof.
  intros Hb Hurl Hf Hl He Hp Hu Hc first.
  assert (Hfirst : first = (Redirect "/login", mkBrowser (Some "/myposts") None, s)).
  { subst first. run. rewrite Hb. simpl. rewrite Hurl. unfold deliver. simpl.
    now rewrite Hb. }
  rewrite Hfirst. simpl. repeat split.
  - now rewrite (login_success C O2 s _ login u).
  - intros b0 Hb0. rewrite (login_success C O2 s b0 login u); auto. simpl.
    now rewrite Hb0.
Qed.

Lemma login_returns_to_myposts_witness :
  (visit sample_collab calm GET_myposts (plain "/myposts" None "") nobody sample_store).1.1
  = Redirect "/login"
  /\ (visit sample_collab calm POST_login
        (form "/login" None "alice@example.com" "wonderland")
        (visit sample_collab calm GET_myposts (plain "/myposts" None "") nobody
           sample_store).1.2
        (visit sample_collab calm GET_myposts (plain "/myposts" None "") nobody
           sample_store).2).1.1
     = Redirect "/myposts"
  /\ (visit sample_collab calm POST_login
        (form "/login" None "alice@example.com" "wonderland") nobody sample_store).1.1
     = Redirect "/dashboard".
Proof.
  destruct (login_returns_to_myposts sample_collab calm calm sample_store nobody
              (plain "/myposts" None "")
              (form "/login" None "alice@example.com" "wonderland") alice
              eq_refl eq_refl eq_refl eq_refl)
    as (Hredirect & _ & _ & _ & Hback & Hdefault); try reflexivity; try discriminate.
  split; [exact Hredirect|]. split; [exact Hback|]. now apply Hdefault.
Defined.

(** ** Who is an admin *)

(** The users after a signup request: the same, or one more. *)
Lemma signup_users C O s req :
  users (store (serve C O POST_signup req s).2) = users s
  \/ users (store (serve C O POST_signup req s).2)
     = (users s ++ [User.new (fresh_id O) (signup_doc C req)])%list.
Proof.
  run. destruct (user req); simpl; [now left|].
  destruct (find_fails O); simpl; [now left|].
  destruct (validationResult (isEmail C) req) as [|msg rest]; simpl.
  - destruct (List.find (by_email (body_email req)) (users s)); simpl; [now left|].
    destruct (save_fails O); simpl; [now left|].
    destruct (has_user_id (fresh_id O) (users s)); simpl; [now left|].
    destruct (login_fails O); simpl; now right.
  - unfold_monad. simpl. rewrite req_flash_runs. now left.
Qed.

(** Nobody but the author gets a post deleted. *)
Lemma delete_only_by_author C O s req u p :
  user req = Some u ->
  List.find (by_id (params_id req)) (posts s) = Some p ->
  In (EvPostDeleteOne (params_id req)) (events (serve C O GET_delete req s).2) ->
  Post.authorId p = User._id u.
Proof.
  intros Hu Hp. destruct (String.eqb (Post.authorId p) (User._id u)) eqn:He.
  - intros _. now apply String.eqb_eq.
  - run. rewrite Hu. simpl. rewrite (castable_found C s _ p Hp). simpl.
    destruct (find_fails O); simpl.
    + intros [H|[H|[]]]; discriminate.
    + rewrite Hp, He. simpl. intros [H|[]]. discriminate.
Qed.

(** C10: a user the signup handler adds to the store is the document built
    from the literal with [admin: false]; that literal has no [isAdmin] key,
    the document has neither property, so [req.user.isAdmin] is never truthy
    for it: a delete it requests is carried out only on its own posts, and
    for a post of anyone else the answer is 403. *)
Theorem signup_user_is_no_admin C O s req u :
  In u (users (store (serve C O POST_signup req s).2)) ->
  ~ In u (users s) ->
  u = User.new (fresh_id O) (signup_doc C req)
  /\ raw_get (signup_doc C req) "admin" = JBool false
  /\ raw_get (signup_doc C req) "isAdmin" = JUndefined
  /\ User.get u "admin" = JUndefined
  /\ User.get u "isAdmin" = JUndefined
  /\ truthy (User.get u "isAdmin") = false
  /\ forall O' s' del p,
       user del = Some u ->
       List.find (by_id (params_id del)) (posts s') = Some p ->
       (In (EvPostDeleteOne (params_id del)) (events (serve C O' GET_delete del s').2) ->
        Post.authorId p = User._id u)
       /\ (find_fails O' = false ->
           Post.authorId p <> User._id u ->
           serve C O' GET_delete del s'
           = (Send 403 "You are not authorized to delete this post",
              mkMachine s' [EvPostFindById (params_id del)])).
Proof.
  intros Hin Hnew.
  assert (Hu : u = User.new (fresh_id O) (signup_doc C req)).
  { destruct (signup_users C O s req) as [Hsame|Hmore].
    - rewrite Hsame in Hin. contradiction.
    - rewrite Hmore in Hin. apply in_app_or in Hin as [Hin|[Hin|[]]]; [contradiction|].
      now symmetry. }
  split; [exact Hu|]. do 5 (split; [reflexivity|]).
  intros O' s' del p Hdel Hp. split.
  - now apply (delete_only_by_author C O' s' del u p).
  - intros Hf Hne.
    pose proof (delete_turned_away C O' s' del u Hdel Hf) as Hturned.
    rewrite Hp in Hturned. now apply Hturned.
Qed.

Lemma signup_user_is_no_admin_witness :
  truthy (User.get
            (User.mk "65f000000000000000000009" "carol@example.com" "$2b$10$rabbit-hole")
            "isAdmin") = false
  /\ serve sample_collab calm GET_delete
       (plain "/delete/p1"
          (Some (User.mk "65f000000000000000000009" "carol@example.com"
                   "$2b$10$rabbit-hole"))
          "p1")
       sample_store
     = (Send 403 "You are not authorized to delete this post",
        mkMachine sample_store [EvPostFindById "p1"]).
Proof.
  assert (Hin : In (User.mk "65f000000000000000000009" "carol@example.com"
                      "$2b$10$rabbit-hole")
                  (users (store (serve sample_collab calm POST_signup
                                   (form "/signup" None "carol@example.com" "rabbit-hole")
                                   sample_store).2)))
    by (simpl; auto).
  assert (Hnew : ~ In (User.mk "65f000000000000000000009" "carol@example.com"
                         "$2b$10$rabbit-hole")
                     (users sample_store))
    by (intros [H|[H|[]]]; discriminate).
  destruct (signup_user_is_no_admin sample_collab calm sample_store
              (form "/signup" None "carol@example.com" "rabbit-hole") _ Hin Hnew)
    as (_ & _ & _ & _ & _ & Hflag & Hdelete).
  split; [exact Hflag|].
  apply (proj2 (Hdelete calm sample_store
                  (plain "/delete/p1"
                     (Some (User.mk "65f000000000000000000009" "carol@example.com"
                              "$2b$10$rabbit-hole"))
                     "p1")
                  post1 eq_refl eq_refl)).
  - reflexivity.
  - discriminate.
Defined.


(** ** The users collection over time *)

(** Case analysis on everything a handler branches on. *)
Ltac split_cases :=
  repeat (simpl;
          match goal with
          | |- context [castable ?c ?s ?i] => destruct (castable c s i)
          | |- context [user ?r] => destruct (user r)
          | |- context [file ?r] => destruct (file r)
          | |- context [is_old ?r] => destruct (is_old r)
          | |- context [find_fails ?o] => destruct (find_fails o)
          | |- context [save_fails ?o] => destruct (save_fails o)
          | |- context [delete_fails ?o] => destruct (delete_fails o)
          | |- context [login_fails ?o] => destruct (login_fails o)
          | |- context [ObjectId_isValid ?c ?i] => destruct (ObjectId_isValid c i)
          | |- context [bcrypt_compare ?c ?a ?b] => destruct (bcrypt_compare c a b)
          | |- context [List.find ?f ?l] => destruct (List.find f l)
          | |- context [has_post_id ?i ?l] => destruct (has_post_id i l)
          | |- context [bool_decide ?P] => destruct (bool_decide P)
          | |- context [String.eqb ?a ?b] => destruct (String.eqb a b)
          end).

(** Only the signup route writes to the users. *)
Lemma users_written_by_signup_only C O r req s :
  r <> POST_signup ->
  users (store (serve C O r req s).2) = users s.
Proof.
  intros Hr. destruct r; try contradiction; run; split_cases; reflexivity.
Qed.

(** Served one request after the other, the application never stores two
    users with one email. *)
Lemma unique_emails_kept C O r req s :
  unique_emails s -> unique_emails (store (serve C O r req s).2).
Proof.
  unfold unique_emails. intros Hnd.
  destruct r; try (now rewrite users_written_by_signup_only).
  revert Hnd. run. destruct (user req); simpl; [auto|].
  destruct (find_fails O); simpl; [auto|].
  destruct (validationResult (isEmail C) req) as [|msg rest]; simpl.
  - destruct (List.find (by_email (body_email req)) (users s)) eqn:Hfind; simpl; [auto|].
    destruct (save_fails O); simpl; [auto|].
    destruct (has_user_id (fresh_id O) (users s)); simpl; [auto|].
    apply find_by_email_none in Hfind. intros Hnd.
    assert (Hnd' : NoDup (map User.email (users s) ++ [body_email req])).
    { apply NoDup_app. split; [exact Hnd|]. split; [|apply NoDup_singleton].
      intros e He Hin. apply list_elem_of_In in He.
      apply list_elem_of_singleton in Hin. congruence. }
    destruct (login_fails O); simpl; now rewrite map_app.
  - unfold_monad. simpl. now rewrite req_flash_runs.
Qed.

Lemma reachable_unique_emails C s : reachable C s -> unique_emails s.
Proof.
  induction 1 as [|O r req s Hs IH].
  - apply NoDup_nil_2.
  - now apply unique_emails_kept.
Qed.

(** ** The name of an upload *)

Lemma split_on_nonempty sep s : split_on sep s <> [].
Proof.
  destruct s as [|c s]; simpl; [discriminate|].
  destruct (Ascii.eqb c sep); [discriminate|].
  destruct (split_on sep s); discriminate.
Qed.

Lemma split_on_no_sep sep s : has_char sep s = false -> split_on sep s = [s].
Proof.
  induction s as [|c s IH]; simpl; [reflexivity|].
  intros H. apply orb_false_elim in H as [Hc Hs].
  rewrite Hc, (IH Hs). reflexivity.
Qed.

Lemma split_on_app_two sep stem rest :
  exists a b more, split_on sep (stem ++ String sep rest) = a :: b :: more.
Proof.
  induction stem as [|c stem (a & b & more & IH)]; simpl.
  - rewrite Ascii.eqb_refl.
    destruct (split_on sep rest) as [|b more] eqn:E; [now apply split_on_nonempty in E|].
    now exists EmptyString, b, more.
  - rewrite IH. destruct (Ascii.eqb c sep).
    + now exists EmptyString, a, (b :: more).
    + now exists (String c a), b, more.
Qed.

Lemma last_split_on_app sep stem rest :
  List.last (split_on sep (stem ++ String sep rest)) EmptyString
  = List.last (split_on sep rest) EmptyString.
Proof.
  induction stem as [|c stem IH]; simpl.
  - rewrite Ascii.eqb_refl.
    destruct (split_on sep rest) eqn:E; [now apply split_on_nonempty in E|reflexivity].
  - destruct (split_on_app_two sep stem rest) as (a & b & more & E).
    rewrite E in IH |- *. destruct (Ascii.eqb c sep); exact IH.
Qed.

(** The part after the last dot is the extension the stored file gets. *)
Theorem multer_keeps_extension uuid stem ext :
  has_char "."%char ext = false ->
  multer_filename uuid (stem ++ "." ++ ext) = uuid ++ "." ++ ext.
Proof.
  intros Hext. unfold multer_filename, extension.
  change (stem ++ "." ++ ext) with (stem ++ String "."%char ext).
  rewrite last_split_on_app, (split_on_no_sep _ _ Hext). reflexivity.
Qed.

Lemma multer_keeps_extension_witness :
  multer_filename "1b9d6bcd" "holiday.2024.jpeg" = "1b9d6bcd.jpeg".
Proof.
  apply (multer_keeps_extension "1b9d6bcd" "holiday.2024" "jpeg"). reflexivity.
Defined.

(** A name without a dot is taken whole as the extension. *)
Theorem multer_dotless_name uuid originalname :
  has_char "."%char originalname = false ->
  multer_filename uuid originalname = uuid ++ "." ++ originalname.
Proof.
  intros H. unfold multer_filename, extension. now rewrite (split_on_no_sep _ _ H).
Qed.

Lemma multer_dotless_name_witness :
  multer_filename "1b9d6bcd" "README" = "1b9d6bcd.README".
Proof. apply (multer_dotless_name "1b9d6bcd" "README"). reflexivity. Defined.

Lemma split_on_pieces_clean sep s :
  Forall (fun piece => has_char sep piece = false) (split_on sep s).
Proof.
  induction s as [|c s IH]; simpl.
  - now repeat constructor.
  - destruct (Ascii.eqb c sep) eqn:Hc.
    + now constructor.
    + destruct (split_on sep s) as [|piece rest]; [now repeat constructor; simpl; rewrite Hc|].
      apply Forall_cons in IH as [Hp Hr].
      constructor; [simpl; now rewrite Hc, Hp | exact Hr].
Qed.

(** The extension never contains a dot, so the stored name has the shape
    [uuid.ext] whatever the client called the file. *)
Theorem extension_has_no_dot originalname :
  has_char "."%char (extension originalname) = false.
Proof.
  unfold extension.
  pose proof (split_on_pieces_clean "."%char originalname) as Hall.
  pose proof (split_on_nonempty "."%char originalname) as Hne.
  induction (split_on "."%char originalname) as [|piece rest IH]; [contradiction|].
  apply Forall_cons in Hall as [Hp Hr].
  destruct rest as [|piece' rest]; [exact Hp|].
  apply IH; [exact Hr|discriminate].
Qed.

(** ** The display name *)

Lemma before_at_is_first_piece s : before_at s = hd EmptyString (split_on "@"%char s).
Proof.
  induction s as [|c s IH]; simpl; [reflexivity|].
  destruct (Ascii.eqb c "@"%char); [reflexivity|].
  rewrite IH. destruct (split_on "@"%char s) eqn:E; [now apply split_on_nonempty in E|].
  reflexivity.
Qed.

(** The display name is the email's local part. *)
Theorem before_at_local_part local domain :
  has_char "@"%char local = false ->
  before_at (local ++ "@" ++ domain) = local.
Proof.
  intros H. induction local as [|c local IH]; simpl; [reflexivity|].
  simpl in H. apply orb_false_elim in H as [Hc Hl].
  rewrite Hc. f_equal. now apply IH.
Qed.

Lemma before_at_local_part_witness : before_at "alice@example.com" = "alice".
Proof. apply (before_at_local_part "alice" "example.com"). reflexivity. Defined.

(** ** The gates *)

(** Without a session, every route behind [isLoggedin] answers with the
    redirect to the login page, leaves the store as it was and issues no
    store call: on POST /post not even the upload is written. *)
Theorem guests_sent_to_login C O r req s :
  gated r = true ->
  user req = None ->
  (serve C O r req s).1 = Redirect "/login"
  /\ store (serve C O r req s).2 = s
  /\ Forall (fun e => is_store_call e = false) (events (serve C O r req s).2).
Proof.
  intros Hr Hu.
  destruct r; try discriminate; run; rewrite Hu; simpl;
    repeat split; repeat constructor.
Qed.

Lemma guests_sent_to_login_witness :
  (serve sample_collab calm POST_post
     (mkRequest "/post" None "" None "" "" "Hi" "there" (Some "x.png") None)
     sample_store).1 = Redirect "/login"
  /\ store (serve sample_collab calm POST_post
              (mkRequest "/post" None "" None "" "" "Hi" "there" (Some "x.png") None)
              sample_store).2 = sample_store.
Proof.
  destruct (guests_sent_to_login sample_collab calm POST_post
              (mkRequest "/post" None "" None "" "" "Hi" "there" (Some "x.png") None)
              sample_store eq_refl eq_refl) as (Hr & Hs & _).
  now split.
Defined.

(** With a session, the signup form, its submission and the login form
    answer with the redirect to the dashboard and touch nothing: a logged-in
    caller cannot create an account. *)
Theorem members_sent_to_dashboard C O r req s u :
  guests_only r = true ->
  user req = Some u ->
  serve C O r req s = (Redirect "/dashboard", mkMachine s []).
Proof.
  intros Hr Hu. destruct r; try discriminate; run; now rewrite Hu.
Qed.

Lemma members_sent_to_dashboard_witness :
  serve sample_collab calm POST_signup
    (form "/signup" (Some alice) "dora@example.com" "long-enough") sample_store
  = (Redirect "/dashboard", mkMachine sample_store []).
Proof.
  exact (members_sent_to_dashboard sample_collab calm POST_signup
           (form "/signup" (Some alice) "dora@example.com" "long-enough")
           sample_store alice eq_refl eq_refl).
Defined.

(** ** The pending-redirect cookie *)

Lemma flash_is_no_cookie kind msgs :
  Forall (fun e => is_cookie e = false) (map (EvFlash kind) msgs).
Proof. induction msgs; simpl; now constructor. Qed.

(** [storeOriginalUrl] is the only writer of the redUrl cookie, and it
    writes for callers without a session only. *)
Lemma no_redurl_with_session C O r req s u :
  user req = Some u ->
  Forall (fun e => is_cookie e = false) (events (serve C O r req s).2).
Proof.
  intros Hu. destruct r; run; rewrite ?Hu; simpl.
  all: split_cases; now repeat constructor.
Qed.

Lemma deliver_without_cookie (b : Browser) (evs : list Event) :
  Forall (fun e => is_cookie e = false) evs ->
  jar_redUrl (deliver b evs) = jar_redUrl b.
Proof.
  unfold deliver. revert b. induction evs as [|e evs IH]; intros b Hall; simpl.
  - reflexivity.
  - apply Forall_cons in Hall as [He Hall]. rewrite (IH _ Hall).
    destruct e; simpl in *; try reflexivity. discriminate.
Qed.

(** A request from a browser whose session restores to a stored user never
    changes the browser's redUrl cookie, whatever the route and whatever it
    answers: the pending redirect is recorded and overwritten by visits
    without a session only. *)
Theorem redurl_kept_with_session C O r req b s id u :
  session b = Some id ->
  List.find (fun v => String.eqb (User._id v) id) (users s) = Some u ->
  jar_redUrl (visit C O r req b s).1.2 = jar_redUrl b.
Proof.
  intros Hb Hu. unfold visit, passport_session, deserializeUser. rewrite Hb.
  unfold_monad. simpl. destruct (find_fails O); simpl; [reflexivity|].
  rewrite Hu.
  pose proof (no_redurl_with_session C O r (sent_by b (Some u) req) s u eq_refl) as Hall.
  destruct (serve C O r (sent_by b (Some u) req) s) as [reply m]. simpl in *.
  now apply deliver_without_cookie.
Qed.

Lemma redurl_kept_with_session_witness :
  jar_redUrl (visit sample_collab calm GET_myposts (plain "/myposts" None "")
                (mkBrowser (Some "/post/edit/p1") (Some "u-alice")) sample_store).1.2
  = Some "/post/edit/p1".
Proof.
  exact (redurl_kept_with_session sample_collab calm GET_myposts
           (plain "/myposts" None "")
           (mkBrowser (Some "/post/edit/p1") (Some "u-alice")) sample_store
           "u-alice" alice eq_refl eq_refl).
Defined.

(** Without a session, the feed, the own-posts page and the edit form leave
    the requested URL in the browser's redUrl cookie, whatever the handler
    goes on to answer. *)
Theorem cookie_records_url C O r req b s :
  r = GET_index \/ r = GET_myposts \/ r = GET_post_edit ->
  session b = None ->
  jar_redUrl (visit C O r req b s).1.2 = Some (url req).
Proof.
  intros Hr Hb. destruct Hr as [Hr|[Hr|Hr]]; subst r; run; rewrite Hb; simpl.
  all: split_cases; reflexivity.
Qed.

Lemma cookie_records_url_witness :
  jar_redUrl (visit sample_collab find_down GET_index
                (mkRequest "/?sortby=old" None "" (Some "old") "" "" "" "" None None)
                nobody sample_store).1.2
  = Some "/?sortby=old".
Proof.
  apply (cookie_records_url sample_collab find_down GET_index
           (mkRequest "/?sortby=old" None "" (Some "old") "" "" "" "" None None)
           nobody sample_store); [now left | reflexivity].
Defined.

(** ** What the routes write *)

(** The feed, the forms, the listings, the single-post view, login and
    logout leave users, posts and blobs exactly as they were, whatever the
    request and whether or not the store answers. *)
Theorem read_only_routes_keep_store C O r req s :
  read_only r = true ->
  store (serve C O r req s).2 = s.
Proof.
  intros Hr. destruct r; try discriminate; run.
  all: split_cases; reflexivity.
Qed.

Lemma read_only_routes_keep_store_witness :
  store (serve sample_collab calm POST_login
           (form "/login" None "alice@example.com" "wonderland") sample_store).2
  = sample_store.
Proof.
  exact (read_only_routes_keep_store sample_collab calm POST_login
           (form "/login" None "alice@example.com" "wonderland") sample_store eq_refl).
Defined.

(** ** Creating a post *)

Lemma find_app_fresh (l : list Post.t) (p : Post.t) :
  has_post_id (Post._id p) l = false ->
  List.find (by_id (Post._id p)) (l ++ [p]) = Some p.
Proof.
  induction l as [|q l IH]; simpl.
  - intros _. unfold by_id. now rewrite String.eqb_refl.
  - intros H. apply orb_false_elim in H as [Hq Hl]. rewrite Hq. now apply IH.
Qed.

(** A logged-in POST /post with a file, when the save goes through: the file
    is in the upload directory, and the posts have one more, found under its
    new identifier, with the form's title and body, the upload's name, the
    caller as author, the local part of the caller's email as display name
    and the current time. *)
Theorem post_created C O s req u f :
  user req = Some u ->
  file req = Some f ->
  save_fails O = false ->
  has_post_id (fresh_id O) (posts s) = false ->
  let post :=
    Post.mk (fresh_id O) (body_title req) f (body_body req) (User._id u)
      (before_at (User.email u)) (now O) in
  serve C O POST_post req s
  = (Redirect "/dashboard",
     mkMachine (mkStore (users s) (posts s ++ [post]) (blobs s ∪ {[f]}))
       [EvUpload f; EvPostSave post; EvFlash "success" "Post created successfully."])
  /\ List.find (by_id (fresh_id O)) (posts s ++ [post]) = Some post
  /\ Post.filename post ∈ blobs s ∪ {[f]}.
Proof.
  intros Hu Hfile Hs Hfresh post. split; [|split].
  - run. rewrite Hu, Hfile. simpl. rewrite Hs. simpl. now rewrite Hfresh.
  - now apply (find_app_fresh (posts s) post).
  - simpl. apply elem_of_union_r. now apply elem_of_singleton.
Qed.

Lemma post_created_witness :
  serve sample_collab calm POST_post
    (mkRequest "/post" (Some bob) "" None "" "" "Fourth" "brand new" (Some "four.png") None)
    sample_store
  = (Redirect "/dashboard",
     mkMachine
       (mkStore (users sample_store)
          (posts sample_store
           ++ [Post.mk "65f000000000000000000009" "Fourth" "four.png" "brand new" "u-bob"
                 "bob" 4000])
          (blobs sample_store ∪ {[ "four.png" ]}))
       [EvUpload "four.png";
        EvPostSave
          (Post.mk "65f000000000000000000009" "Fourth" "four.png" "brand new" "u-bob"
             "bob" 4000);
        EvFlash "success" "Post created successfully."]).
Proof.
  apply (post_created sample_collab calm sample_store
           (mkRequest "/post" (Some bob) "" None "" "" "Fourth" "brand new"
              (Some "four.png") None)
           bob "four.png"); reflexivity.
Defined.

(** A logged-in POST /post without a file is answered 500: reading
    [req.file.filename] throws before anything is stored. *)
Theorem post_without_file C O s req u :
  user req = Some u ->
  file req = None ->
  serve C O POST_post req s
  = (Send 500 "Internal Server Error",
     mkMachine s [EvLog TypeError; EvFlash "error" "Internal Server Error"]).
Proof.
  intros Hu Hfile. run. now rewrite Hu, Hfile.
Qed.

Lemma post_without_file_witness :
  serve sample_collab calm POST_post
    (mkRequest "/post" (Some bob) "" None "" "" "Fourth" "no picture" None None)
    sample_store
  = (Send 500 "Internal Server Error",
     mkMachine sample_store [EvLog TypeError; EvFlash "error" "Internal Server Error"]).
Proof.
  exact (post_without_file sample_collab calm sample_store
           (mkRequest "/post" (Some bob) "" None "" "" "Fourth" "no picture" None None)
           bob eq_refl eq_refl).
Defined.

(** When the save of a new post fails the answer is 500 and no post is
    added, but the file multer wrote stays in the upload directory: the
    handler does not clean it up. *)
Theorem post_save_failure_leaves_upload C O s req u f :
  user req = Some u ->
  file req = Some f ->
  save_fails O = true ->
  (serve C O POST_post req s).1 = Send 500 "Internal Server Error"
  /\ posts (store (serve C O POST_post req s).2) = posts s
  /\ blobs (store (serve C O POST_post req s).2) = blobs s ∪ {[f]}.
Proof.
  intros Hu Hfile Hs. run. rewrite Hu, Hfile. simpl. now rewrite Hs.
Qed.

Lemma post_save_failure_leaves_upload_witness :
  (serve sample_collab save_down POST_post
     (mkRequest "/post" (Some bob) "" None "" "" "Fourth" "lost" (Some "four.png") None)
     sample_store).1 = Send 500 "Internal Server Error"
  /\ "four.png" ∈ blobs (store (serve sample_collab save_down POST_post
                                  (mkRequest "/post" (Some bob) "" None "" "" "Fourth"
                                     "lost" (Some "four.png") None)
                                  sample_store).2).
Proof.
  destruct (post_save_failure_leaves_upload sample_collab save_down sample_store
              (mkRequest "/post" (Some bob) "" None "" "" "Fourth" "lost"
                 (Some "four.png") None)
              bob "four.png" eq_refl eq_refl eq_refl) as (Hr & _ & Hb).
  split; [exact Hr|]. rewrite Hb. apply elem_of_union_r. now apply elem_of_singleton.
Defined.

(** ** Listing posts *)

(** GET /posts/user/:id, open to everyone: while the query succeeds the page
    shows exactly the stored posts whose author is the identifier of the
    path, and a failed query is answered 500. *)
Theorem posts_by_author C O s req :
  (find_fails O = false ->
   exists ps,
     (serve C O GET_posts_user req s).1 = Render "index" ps
     /\ forall p, In p ps <-> In p (posts s) /\ Post.authorId p = params_id req)
  /\ (find_fails O = true ->
      (serve C O GET_posts_user req s).1 = Send 500 "Internal Server Error").
Proof.
  split; intros Hf.
  - exists (List.filter (by_author (params_id req)) (posts s)). split.
    + run. now rewrite Hf.
    + intros p. rewrite filter_In. unfold by_author. now rewrite String.eqb_eq.
  - run. now rewrite Hf.
Qed.

Lemma posts_by_author_witness :
  (serve sample_collab calm GET_posts_user (plain "/posts/user/u-alice" None "u-alice")
     sample_store).1 = Render "index" [post1; post3]
  /\ (serve sample_collab find_down GET_posts_user
        (plain "/posts/user/u-alice" None "u-alice") sample_store).1
     = Send 500 "Internal Server Error".
Proof.
  split.
  - destruct (proj1 (posts_by_author sample_collab calm sample_store
                       (plain "/posts/user/u-alice" None "u-alice")) eq_refl)
      as (ps & Hr & _).
    rewrite Hr. vm_compute in Hr. now injection Hr as <-.
  - now apply (proj2 (posts_by_author sample_collab find_down sample_store
                        (plain "/posts/user/u-alice" None "u-alice"))).
Defined.

(** GET /myposts with a session shows the caller the posts the public page
    of the caller's own identifier shows: exactly the caller's posts. *)
Theorem myposts_are_own_posts C O s req u :
  user req = Some u ->
  find_fails O = false ->
  exists ps,
    (serve C O GET_myposts req s).1 = Render "dirupload" ps
    /\ (serve C O GET_posts_user (plain (url req) None (User._id u)) s).1
       = Render "index" ps
    /\ forall p, In p ps <-> In p (posts s) /\ Post.authorId p = User._id u.
Proof.
  intros Hu Hf. exists (List.filter (by_author (User._id u)) (posts s)).
  split; [|split].
  - run. rewrite Hu. simpl. now rewrite Hf.
  - run. now rewrite Hf.
  - intros p. rewrite filter_In. unfold by_author. now rewrite String.eqb_eq.
Qed.

Lemma myposts_are_own_posts_witness :
  (serve sample_collab calm GET_myposts (plain "/myposts" (Some alice) "") sample_store).1
  = Render "dirupload" [post1; post3].
Proof.
  destruct (myposts_are_own_posts sample_collab calm sample_store
              (plain "/myposts" (Some alice) "") alice eq_refl eq_refl)
    as (ps & Hr & _).
  rewrite Hr. vm_compute in Hr. now injection Hr as <-.
Defined.

(** ** Deleting a post: what is removed *)

Lemma remove_post_keeps_others id (l : list Post.t) (q : Post.t) :
  In q l -> Post._id q <> id -> In q (remove_post id l).
Proof.
  induction l as [|p l IH]; simpl; [contradiction|].
  intros [->|Hin] Hne.
  - unfold by_id. apply String.eqb_neq in Hne. rewrite Hne. now left.
  - destruct (by_id id p); [exact Hin|]. right. now apply IH.
Qed.

Lemma remove_post_unique id (l : list Post.t) :
  NoDup (map Post._id l) -> List.find (by_id id) (remove_post id l) = None.
Proof.
  induction l as [|p l IH]; simpl; [reflexivity|].
  intros Hnd. apply NoDup_cons in Hnd as [Hp Hnd].
  destruct (by_id id p) eqn:E.
  - apply String.eqb_eq in E.
    destruct (List.find (by_id id) l) as [q|] eqn:Hq; [|reflexivity].
    exfalso. apply Hp. apply find_by_id_sound in Hq as [Hin Hid].
    rewrite E, <- Hid. apply list_elem_of_In, in_map, Hin.
  - simpl. rewrite E. now apply IH.
Qed.

(** The author's GET /delete/:id of a post whose blob is on disk, when
    lookup and delete go through: the answer is the redirect to the
    own-posts page, no post is left under the identifier (identifiers being
    unique), the post's blob is gone from the upload directory, and every
    other post and every user is still there. *)
Theorem delete_by_author C O s req u p :
  user req = Some u ->
  find_fails O = false ->
  delete_fails O = false ->
  List.find (by_id (params_id req)) (posts s) = Some p ->
  Post.authorId p = User._id u ->
  Post.filename p ∈ blobs s ->
  NoDup (map Post._id (posts s)) ->
  let out := serve C O GET_delete req s in
  out.1 = Redirect "/myposts"
  /\ List.find (by_id (params_id req)) (posts (store out.2)) = None
  /\ blobs (store out.2) = blobs s ∖ {[Post.filename p]}
  /\ (Post.filename p ∉ blobs (store out.2))
  /\ users (store out.2) = users s
  /\ forall q, In q (posts s) -> Post._id q <> params_id req ->
               In q (posts (store out.2)).
Proof.
  intros Hu Hf Hd Hp Ha Hblob Hnd out.
  assert (Hauth : String.eqb (Post.authorId p) (User._id u) = true)
    by (now apply String.eqb_eq).
  apply (bool_decide_eq_true_2 _) in Hblob.
  assert (Hout :
    out.1 = Redirect "/myposts"
    /\ posts (store out.2) = remove_post (params_id req) (posts s)
    /\ blobs (store out.2) = blobs s ∖ {[Post.filename p]}
    /\ users (store out.2) = users s).
  { subst out. run. rewrite Hu. simpl.
    rewrite (castable_found C s _ p Hp), Hf. simpl. rewrite Hp, Hauth. simpl.
    rewrite Hblob. simpl. rewrite Hd. simpl. auto. }
  destruct Hout as (Hr & Hposts & Hblobs & Husers).
  split; [exact Hr|]. rewrite Hposts. split; [now apply remove_post_unique|].
  split; [exact Hblobs|]. split.
  { rewrite Hblobs. intros Hin. apply elem_of_difference in Hin as [_ Hnot].
    apply Hnot. now apply elem_of_singleton. }
  split; [exact Husers|].
  intros q Hq Hne. now apply remove_post_keeps_others.
Qed.

Lemma delete_by_author_witness :
  (serve sample_collab calm GET_delete (plain "/delete/p1" (Some alice) "p1")
     sample_store).1 = Redirect "/myposts"
  /\ List.find (by_id "p1")
       (posts (store (serve sample_collab calm GET_delete
                        (plain "/delete/p1" (Some alice) "p1") sample_store).2))
     = None
  /\ "one.png" ∉ blobs (store (serve sample_collab calm GET_delete
                                 (plain "/delete/p1" (Some alice) "p1") sample_store).2).
Proof.
  destruct (delete_by_author sample_collab calm sample_store
              (plain "/delete/p1" (Some alice) "p1") alice post1
              eq_refl eq_refl eq_refl eq_refl eq_refl) as (Hr & Hgone & _ & Hblob & _).
  - apply (bool_decide_unpack ("one.png" ∈ blobs sample_store)). reflexivity.
  - apply (bool_decide_unpack (NoDup (map Post._id (posts sample_store)))). reflexivity.
  - auto.
Defined.

(** When [Post.deleteOne] fails on the author's request for a post whose
    blob is on disk, the answer is 500 and the post stays in the store, but
    its blob has already been unlinked: the record is left pointing at a
    file that is gone. *)
Theorem delete_failure_loses_blob C O s req u p :
  user req = Some u ->
  find_fails O = false ->
  delete_fails O = true ->
  List.find (by_id (params_id req)) (posts s) = Some p ->
  Post.authorId p = User._id u ->
  Post.filename p ∈ blobs s ->
  let out := serve C O GET_delete req s in
  out.1 = Send 500 "Internal Server Error"
  /\ posts (store out.2) = posts s
  /\ Post.filename p ∉ blobs (store out.2).
Proof.
  intros Hu Hf Hd Hp Ha Hblob out.
  assert (Hauth : String.eqb (Post.authorId p) (User._id u) = true)
    by (now apply String.eqb_eq).
  apply (bool_decide_eq_true_2 _) in Hblob.
  subst out. run. rewrite Hu. simpl.
  rewrite (castable_found C s _ p Hp), Hf. simpl. rewrite Hp, Hauth. simpl.
  rewrite Hblob. simpl. rewrite Hd. simpl. repeat split.
  intros Hin. apply elem_of_difference in Hin as [_ Hnot].
  apply Hnot. now apply elem_of_singleton.
Qed.

Lemma delete_failure_loses_blob_witness :
  In post1
    (posts (store (serve sample_collab (mkOracle false false true false "" 0) GET_delete
                     (plain "/delete/p1" (Some alice) "p1") sample_store).2))
  /\ "one.png" ∉ blobs (store (serve sample_collab (mkOracle false false true false "" 0)
                                 GET_delete (plain "/delete/p1" (Some alice) "p1")
                                 sample_store).2).
Proof.
  destruct (delete_failure_loses_blob sample_collab (mkOracle false false true false "" 0)
              sample_store (plain "/delete/p1" (Some alice) "p1") alice post1
              eq_refl eq_refl eq_refl eq_refl eq_refl) as (_ & Hposts & Hblob).
  - apply (bool_decide_unpack ("one.png" ∈ blobs sample_store)). reflexivity.
  - split; [|exact Hblob]. rewrite Hposts. simpl. auto.
Defined.

(** When the post's blob is not on disk, the unlink callback throws outside
    the handler's [try]: the process dies, the author's request is never
    answered and the record is not deleted by it. *)
Lemma delete_missing_blob_crashes C O s req u p :
  user req = Some u ->
  find_fails O = false ->
  List.find (by_id (params_id req)) (posts s) = Some p ->
  Post.authorId p = User._id u ->
  Post.filename p ∉ blobs s ->
  serve C O GET_delete req s
  = (Crashed FsError,
     mkMachine s
       [EvPostFindById (params_id req); EvUnlinkError (Post.filename p);
        EvUncaught FsError]).
Proof.
  intros Hu Hf Hp Ha Hblob.
  assert (Hauth : String.eqb (Post.authorId p) (User._id u) = true)
    by (now apply String.eqb_eq).
  apply (bool_decide_eq_false_2 _) in Hblob.
  run. rewrite Hu. simpl.
  rewrite (castable_found C s _ p Hp), Hf. simpl. rewrite Hp, Hauth. simpl.
  rewrite Hblob. simpl. now destruct s.
Qed.

(** ** Editing a post: who can, and what else is touched *)

(** Although POST /post/edit/:postId is not behind [isLoggedin], the posts
    change only when the caller has a session and is the author of the post
    found under the identifier. *)
Theorem edit_only_by_author C O s req :
  posts (store (serve C O POST_post_edit req s).2) <> posts s ->
  exists u p,
    user req = Some u
    /\ List.find (by_id (params_id req)) (posts s) = Some p
    /\ Post.authorId p = User._id u.
Proof.
  destruct (user req) as [u|] eqn:Hu;
    destruct (List.find (by_id (params_id req)) (posts s)) as [p|] eqn:Hp.
  - destruct (String.eqb (Post.authorId p) (User._id u)) eqn:He.
    + intros _. exists u, p. apply String.eqb_eq in He. auto.
    + intros Hch. exfalso. apply Hch. run. rewrite Hu.
      destruct (file req); simpl; case_castable; simpl; try reflexivity;
        destruct (find_fails O); simpl; try reflexivity; rewrite Hp, He; reflexivity.
  - intros Hch. exfalso. apply Hch. run.
    destruct (file req); simpl; case_castable; simpl; try reflexivity;
      destruct (find_fails O); simpl; try reflexivity; rewrite Hp; reflexivity.
  - intros Hch. exfalso. apply Hch. run. rewrite Hu.
    destruct (file req); simpl; case_castable; simpl; try reflexivity;
      destruct (find_fails O); simpl; try reflexivity; rewrite Hp; reflexivity.
  - intros Hch. exfalso. apply Hch. run.
    destruct (file req); simpl; case_castable; simpl; try reflexivity;
      destruct (find_fails O); simpl; try reflexivity; rewrite Hp; reflexivity.
Qed.

Lemma edit_only_by_author_witness :
  exists u p,
    Some alice = Some u
    /\ List.find (by_id "p1") (posts sample_store) = Some p
    /\ Post.authorId p = User._id u.
Proof.
  apply (edit_only_by_author sample_collab calm sample_store
           (edit_form (Some alice) "p1" "First, revised" "still the oldest" None)).
  vm_compute. intros H. discriminate H.
Defined.

(** The upload of a POST /post/edit/:postId is written before anyone is
    authorised: sent without a session, the request changes no post and no
    user, and leaves its file in the upload directory. *)
Theorem edit_upload_of_a_stranger C O s req f :
  user req = None ->
  file req = Some f ->
  let out := serve C O POST_post_edit req s in
  users (store out.2) = users s
  /\ posts (store out.2) = posts s
  /\ blobs (store out.2) = blobs s ∪ {[f]}.
Proof.
  intros Hu Hfile out. subst out. run. rewrite Hfile. simpl.
  case_castable; simpl; [|auto].
  destruct (find_fails O); simpl; [auto|].
  destruct (List.find (by_id (params_id req)) (posts s)); simpl; [|auto].
  rewrite Hu. simpl. auto.
Qed.

Lemma edit_upload_of_a_stranger_witness :
  blobs (store (serve sample_collab calm POST_post_edit
                  (edit_form None "p1" "x" "y" (Some "junk.bin")) sample_store).2)
  = blobs sample_store ∪ {[ "junk.bin" ]}.
Proof.
  now destruct (edit_upload_of_a_stranger sample_collab calm sample_store
                  (edit_form None "p1" "x" "y" (Some "junk.bin")) "junk.bin"
                  eq_refl eq_refl) as (_ & _ & Hb).
Defined.

Lemma replace_post_ids (p : Post.t) (l : list Post.t) :
  map Post._id (replace_post p l) = map Post._id l.
Proof.
  induction l as [|q l IH]; simpl; [reflexivity|].
  destruct (by_id (Post._id p) q) eqn:E; simpl.
  - apply String.eqb_eq in E. now rewrite E.
  - now rewrite IH.
Qed.

Lemma replace_post_keeps_others (p q : Post.t) (l : list Post.t) :
  In q l -> Post._id q <> Post._id p -> In q (replace_post p l).
Proof.
  induction l as [|r l IH]; simpl; [contradiction|].
  intros [->|Hin] Hne.
  - unfold by_id. apply String.eqb_neq in Hne. rewrite Hne. now left.
  - destruct (by_id (Post._id p) r); right; [exact Hin | now apply IH].
Qed.

(** What POST /post/edit/:postId does to the store when it saves. *)
Lemma post_edit_saves C O s req u p :
  user req = Some u ->
  find_fails O = false ->
  save_fails O = false ->
  List.find (by_id (params_id req)) (posts s) = Some p ->
  Post.authorId p = User._id u ->
  exists q,
    posts (store (serve C O POST_post_edit req s).2) = replace_post q (posts s)
    /\ Post._id q = Post._id p
    /\ users (store (serve C O POST_post_edit req s).2) = users s.
Proof.
  intros Hu Hf Hs Hp Ha.
  pose proof (find_has_post_id _ _ _ Hp) as Hhas.
  destruct (find_by_id_sound _ _ _ Hp) as [Hin Hid].
  assert (Hauth : String.eqb (Post.authorId p) (User._id u) = true)
    by (now apply String.eqb_eq).
  pose proof (castable_found C s _ p Hp) as Hcast. unfold castable in Hcast.
  run. destruct (file req) as [f|]; simpl; unfold castable; simpl;
    rewrite Hcast, Hf; simpl; rewrite Hp, Hu; simpl;
    rewrite Hauth; simpl; rewrite Hs; simpl; rewrite Hid, Hhas; simpl.
  - destruct (negb (Post.filename p =? "")); simpl.
    + destruct (bool_decide (Post.filename p ∈ blobs s ∪ {[f]})); simpl;
        eexists; repeat split; exact Hid.
    + eexists; repeat split; exact Hid.
  - eexists; repeat split; exact Hid.
Qed.

(** An edit that is saved touches one post only: the identifiers of the
    posts, in their order, every post under another identifier and the
    users are as before. *)
Theorem edit_touches_one_post C O s req u p :
  user req = Some u ->
  find_fails O = false ->
  save_fails O = false ->
  List.find (by_id (params_id req)) (posts s) = Some p ->
  Post.authorId p = User._id u ->
  let out := serve C O POST_post_edit req s in
  map Post._id (posts (store out.2)) = map Post._id (posts s)
  /\ users (store out.2) = users s
  /\ forall q, In q (posts s) -> Post._id q <> params_id req ->
               In q (posts (store out.2)).
Proof.
  intros Hu Hf Hs Hp Ha out.
  destruct (post_edit_saves C O s req u p Hu Hf Hs Hp Ha) as (p' & Hposts & Hid & Husers).
  destruct (find_by_id_sound _ _ _ Hp) as [_ Hpid].
  subst out. rewrite Hposts. split; [apply replace_post_ids|]. split; [exact Husers|].
  intros q Hq Hne. apply replace_post_keeps_others; [exact Hq|]. congruence.
Qed.

Lemma edit_touches_one_post_witness :
  In post2
    (posts (store (serve sample_collab calm POST_post_edit
                     (edit_form (Some alice) "p1" "First, revised" "still the oldest"
                        (Some "new.png"))
                     sample_store).2)).
Proof.
  destruct (edit_touches_one_post sample_collab calm sample_store
              (edit_form (Some alice) "p1" "First, revised" "still the oldest"
                 (Some "new.png"))
              alice post1 eq_refl eq_refl eq_refl eq_refl eq_refl) as (_ & _ & Hothers).
  apply Hothers; [simpl; auto | discriminate].
Defined.

(** GET /post/edit/:postId with a session, while the store answers: the
    author gets the form with the post, anyone else 403, a well-formed
    identifier without a post 404, and an identifier that is no ObjectId
    500. *)
Theorem edit_form_for_author C O s req u :
  user req = Some u ->
  find_fails O = false ->
  (serve C O GET_post_edit req s).1
  = match List.find (by_id (params_id req)) (posts s) with
    | None =>
        if ObjectId_isValid C (params_id req) then Send 404 "Post not found"
        else Send 500 "Internal Server Error"
    | Some p =>
        if String.eqb (Post.authorId p) (User._id u) then Render "edit" [p]
        else Send 403 "You are not authorized to edit this post"
    end.
Proof.
  intros Hu Hf. run. rewrite Hu. simpl.
  destruct (List.find (by_id (params_id req)) (posts s)) as [p|] eqn:Hp.
  - rewrite (castable_found C s _ p Hp), Hf. simpl.
    now destruct (String.eqb (Post.authorId p) (User._id u)).
  - rewrite (castable_missing C s _ Hp).
    destruct (ObjectId_isValid C (params_id req)); simpl; [|reflexivity].
    now rewrite Hf.
Qed.

Lemma edit_form_for_author_witness :
  (serve sample_collab calm GET_post_edit (plain "/post/edit/p1" (Some alice) "p1")
     sample_store).1 = Render "edit" [post1]
  /\ (serve sample_collab calm GET_post_edit (plain "/post/edit/p1" (Some bob) "p1")
        sample_store).1 = Send 403 "You are not authorized to edit this post"
  /\ (serve sample_collab calm GET_post_edit
        (plain "/post/edit/65f0000000000000000000aa" (Some bob)
           "65f0000000000000000000aa")
        sample_store).1 = Send 404 "Post not found"
  /\ (serve sample_collab calm GET_post_edit (plain "/post/edit/p9" (Some bob) "p9")
        sample_store).1 = Send 500 "Internal Server Error".
Proof.
  split; [|split; [|split]].
  - exact (edit_form_for_author sample_collab calm sample_store
             (plain "/post/edit/p1" (Some alice) "p1") alice eq_refl eq_refl).
  - exact (edit_form_for_author sample_collab calm sample_store
             (plain "/post/edit/p1" (Some bob) "p1") bob eq_refl eq_refl).
  - exact (edit_form_for_author sample_collab calm sample_store
             (plain "/post/edit/65f0000000000000000000aa" (Some bob)
                "65f0000000000000000000aa")
             bob eq_refl eq_refl).
  - exact (edit_form_for_author sample_collab calm sample_store
             (plain "/post/edit/p9" (Some bob) "p9") bob eq_refl eq_refl).
Defined.

(** ** Creating an account *)

Lemma validationResult_passes C req :
  validationResult (isEmail C) req = []
  <-> isEmail C (body_email req) = true /\ 6 <= String.length (body_password req).
Proof.
  unfold validationResult.
  destruct (isEmail C (body_email req));
    destruct (Nat.leb_spec 6 (String.length (body_password req))); simpl;
    split; try discriminate; try (intros [? ?]; discriminate || lia); auto.
Qed.

Lemma find_by_email_app_fresh (l : list User.t) (u : User.t) :
  List.find (by_email (User.email u)) l = None ->
  List.find (by_email (User.email u)) (l ++ [u]) = Some u.
Proof.
  induction l as [|v l IH]; simpl.
  - intros _. unfold by_email. now rewrite String.eqb_refl.
  - destruct (by_email (User.email u) v); [discriminate|]. exact IH.
Qed.

(** The store a signup leaves when it gets as far as saving the user. *)
Lemma signup_store_after C O s req :
  user req = None ->
  find_fails O = false ->
  save_fails O = false ->
  validationResult (isEmail C) req = [] ->
  List.find (by_email (body_email req)) (users s) = None ->
  has_user_id (fresh_id O) (users s) = false ->
  store (serve C O POST_signup req s).2
  = mkStore
      (users s
       ++ [User.mk (fresh_id O) (body_email req) (bcrypt_hash C (body_password req))])
      (posts s) (blobs s).
Proof.
  intros Hu Hf Hs Hvalid Hnone Hfresh.
  run. rewrite Hu. simpl. rewrite Hf. simpl. rewrite Hvalid, Hnone. simpl.
  rewrite Hs. simpl. unfold User.new, signup_doc. simpl. rewrite Hfresh. simpl.
  now destruct (login_fails O).
Qed.

(** POST /signup without a session, with an email [isEmail] accepts that no
    stored user has and a password of at least six characters, when the
    store answers: one user is added, with that email and the bcrypt hash of
    the password (not the password), the session is established for it, and
    the answer is the redirect to the redUrl cookie's target or to the
    dashboard. *)
Theorem signup_creates_account C O s req :
  user req = None ->
  find_fails O = false ->
  save_fails O = false ->
  login_fails O = false ->
  isEmail C (body_email req) = true ->
  6 <= String.length (body_password req) ->
  List.find (by_email (body_email req)) (users s) = None ->
  has_user_id (fresh_id O) (users s) = false ->
  let newUser :=
    User.mk (fresh_id O) (body_email req) (bcrypt_hash C (body_password req)) in
  serve C O POST_signup req s
  = (Redirect (match cookies_redUrl req with
               | Some target => if String.eqb target "" then "/dashboard" else target
               | None => "/dashboard"
               end),
     mkMachine (mkStore (users s ++ [newUser]) (posts s) (blobs s))
       [EvUserFindOne (body_email req); EvUserSave newUser; EvLogin (fresh_id O)]).
Proof.
  intros Hu Hf Hs Hl He Hp Hnone Hfresh newUser.
  assert (Hvalid : validationResult (isEmail C) req = [])
    by (now apply validationResult_passes).
  run. rewrite Hu. simpl. rewrite Hf. simpl. rewrite Hvalid, Hnone. simpl.
  rewrite Hs. simpl. unfold User.new, signup_doc. simpl. rewrite Hfresh. simpl.
  rewrite Hl. simpl. unfold redirect_target.
  destruct (cookies_redUrl req) as [target|]; [|reflexivity].
  simpl. now destruct (String.eqb target "").
Qed.

Lemma signup_creates_account_witness :
  serve sample_collab calm POST_signup
    (mkRequest "/signup" None "" None "carol@example.com" "rabbit-hole" "" "" None
       (Some "/myposts"))
    sample_store
  = (Redirect "/myposts",
     mkMachine
       (mkStore
          (users sample_store
           ++ [User.mk "65f000000000000000000009" "carol@example.com"
                 "$2b$10$rabbit-hole"])
          (posts sample_store) (blobs sample_store))
       [EvUserFindOne "carol@example.com";
        EvUserSave
          (User.mk "65f000000000000000000009" "carol@example.com" "$2b$10$rabbit-hole");
        EvLogin "65f000000000000000000009"]).
Proof.
  apply (signup_creates_account sample_collab calm sample_store
           (mkRequest "/signup" None "" None "carol@example.com" "rabbit-hole" "" "" None
              (Some "/myposts"))); try reflexivity.
  simpl. lia.
Defined.

(** The account a signup creates can log in: with a bcrypt whose [compare]
    accepts a password against its own [hash], the verify callback run on
    the store the signup left, with the same email and password, succeeds
    with the new user. *)
Theorem signup_then_login C O O' s req :
  user req = None ->
  find_fails O = false ->
  save_fails O = false ->
  login_fails O = false ->
  isEmail C (body_email req) = true ->
  6 <= String.length (body_password req) ->
  List.find (by_email (body_email req)) (users s) = None ->
  has_user_id (fresh_id O) (users s) = false ->
  bcrypt_compare C (body_password req) (bcrypt_hash C (body_password req)) = true ->
  find_fails O' = false ->
  (authenticate C O' (body_email req) (body_password req)
     (mkMachine (store (serve C O POST_signup req s).2) [])).1
  = Ok (done_user
          (User.mk (fresh_id O) (body_email req) (bcrypt_hash C (body_password req)))).
Proof.
  intros Hu Hf Hs Hl He Hp Hnone Hfresh Hbcrypt Hf'.
  assert (Hvalid : validationResult (isEmail C) req = [])
    by (now apply validationResult_passes).
  rewrite (signup_store_after C O s req Hu Hf Hs Hvalid Hnone Hfresh).
  rewrite (authenticate_runs C O' _ _ _ Hf'). simpl.
  pose proof (find_by_email_app_fresh (users s)
                (User.mk (fresh_id O) (body_email req)
                   (bcrypt_hash C (body_password req))) Hnone) as Hfound.
  simpl in Hfound. rewrite Hfound. simpl. now rewrite Hbcrypt.
Qed.

Lemma signup_then_login_witness :
  (authenticate sample_collab calm "carol@example.com" "rabbit-hole"
     (mkMachine
        (store (serve sample_collab calm POST_signup
                  (form "/signup" None "carol@example.com" "rabbit-hole")
                  sample_store).2)
        [])).1
  = Ok (done_user
          (User.mk "65f000000000000000000009" "carol@example.com" "$2b$10$rabbit-hole")).
Proof.
  apply (signup_then_login sample_collab calm calm sample_store
           (form "/signup" None "carol@example.com" "rabbit-hole")); try reflexivity.
  simpl. lia.
Defined.

(** POST /signup without a session whose input fails validation, while the
    lookup succeeds: every validation message is flashed, the answer is the
    redirect back to the form, and no account is created, taken email or
    not. *)
Theorem signup_invalid_input C O s req :
  user req = None ->
  find_fails O = false ->
  isEmail C (body_email req) = false \/ String.length (body_password req) < 6 ->
  serve C O POST_signup req s
  = (Redirect "/signup",
     mkMachine s
       (EvUserFindOne (body_email req)
        :: map (EvFlash "error") (validationResult (isEmail C) req))).
Proof.
  intros Hu Hf Hbad.
  assert (Hinvalid : validationResult (isEmail C) req <> []).
  { intros Hvalid. apply validationResult_passes in Hvalid as [He Hp].
    destruct Hbad as [Hbad|Hbad]; [congruence|lia]. }
  run. rewrite Hu. simpl. rewrite Hf. simpl.
  destruct (validationResult (isEmail C) req) as [|msg rest]; [congruence|].
  simpl. unfold_monad. simpl. rewrite req_flash_runs. simpl.
  now destruct s.
Qed.

Lemma signup_invalid_input_witness :
  serve sample_collab calm POST_signup (form "/signup" None "not-an-email" "abc")
    sample_store
  = (Redirect "/signup",
     mkMachine sample_store
       [EvUserFindOne "not-an-email";
        EvFlash "error" "Please enter a valid email address";
        EvFlash "error" "Password must be atleast 6 letters long"]).
Proof.
  apply (signup_invalid_input sample_collab calm sample_store
           (form "/signup" None "not-an-email" "abc")); try reflexivity.
  now left.
Defined.

(** ** Logging in: what never happens *)

(** POST /login establishes a session only for a stored user with the
    submitted email whose stored hash bcrypt accepts for the submitted
    password. *)
Theorem login_only_with_matching_password C O s req uid :
  In (EvLogin uid) (events (serve C O POST_login req s).2) ->
  exists u,
    In u (users s)
    /\ User._id u = uid
    /\ User.email u = body_email req
    /\ bcrypt_compare C (body_password req) (User.password u) = true.
Proof.
  run.
  destruct (String.eqb (body_email req) "" || String.eqb (body_password req) "");
    simpl; [intros [H|[]]; discriminate|].
  destruct (find_fails O); simpl; [intros [H|[]]; discriminate|].
  destruct (List.find (by_email (body_email req)) (users s)) as [u|] eqn:Hu; simpl;
    [|intros [H|[H|[]]]; discriminate].
  destruct (bcrypt_compare C (body_password req) (User.password u)) eqn:Hc; simpl;
    [|intros [H|[H|[]]]; discriminate].
  apply find_by_email_sound in Hu as [Hin He].
  destruct (login_fails O); simpl.
  - intros [H|[]]; discriminate.
  - intros [H|[H|[]]]; [discriminate|]. injection H as <-. now exists u.
Qed.

Lemma login_only_with_matching_password_witness :
  exists u,
    In u (users sample_store)
    /\ User._id u = "u-alice"
    /\ User.email u = "alice@example.com"
    /\ bcrypt_compare sample_collab "wonderland" (User.password u) = true.
Proof.
  apply (login_only_with_matching_password sample_collab calm sample_store
           (form "/login" None "alice@example.com" "wonderland") "u-alice").
  vm_compute. auto.
Defined.

(** When the lookup fails, the verify callback reports the error with
    [done(error)]: POST /login hands it to the error handler, flashes
    nothing and establishes no session. *)
Theorem login_lookup_failure C O s req :
  find_fails O = true ->
  (authenticate C O (body_email req) (body_password req) (mkMachine s [])).1
  = Ok (done_error StoreError)
  /\ (body_email req <> "" -> body_password req <> "" ->
      serve C O POST_login req s
      = (NextError StoreError, mkMachine s [EvUserFindOne (body_email req)])).
Proof.
  intros Hf. split.
  - run. now rewrite Hf.
  - intros He Hp. apply String.eqb_neq in He, Hp. run. now rewrite He, Hp, Hf.
Qed.

Lemma login_lookup_failure_witness :
  serve sample_collab find_down POST_login
    (form "/login" None "alice@example.com" "wonderland") sample_store
  = (NextError StoreError, mkMachine sample_store [EvUserFindOne "alice@example.com"]).
Proof.
  apply (proj2 (login_lookup_failure sample_collab find_down sample_store
                  (form "/login" None "alice@example.com" "wonderland") eq_refl));
    discriminate.
Defined.

(** ** The session *)

Lemma find_user_by_id (l : list User.t) (u : User.t) :
  NoDup (map User._id l) -> In u l ->
  List.find (fun v => String.eqb (User._id v) (User._id u)) l = Some u.
Proof.
  induction l as [|v l IH]; simpl; [contradiction|].
  intros Hnd [->|Hin].
  - now rewrite String.eqb_refl.
  - apply NoDup_cons in Hnd as [Hv Hnd].
    destruct (String.eqb (User._id v) (User._id u)) eqn:E.
    + exfalso. apply Hv. apply String.eqb_eq in E. rewrite E.
      apply list_elem_of_In, in_map, Hin.
    + now apply IH.
Qed.

(** What [deserializeUser] makes of the key [serializeUser] gave for a
    stored user: the user again, or the error of the lookup. *)
Lemma deserialize_serialize O s evs u :
  NoDup (map User._id (users s)) -> In u (users s) ->
  (deserializeUser O (serializeUser u) (mkMachine s evs)).1
  = Ok (if find_fails O then done_restore_error StoreError
        else done_restored (Some u)).
Proof.
  intros Hnd Hin. unfold deserializeUser, serializeUser. unfold_monad. simpl.
  destruct (find_fails O); simpl; [reflexivity|].
  now rewrite (find_user_by_id _ u Hnd Hin).
Qed.

(** The session a login establishes is the one the next request is served
    under: after a successful POST /login the session holds the user's
    identifier, and the next GET /dashboard of the same browser renders the
    dashboard when the user is restored, and goes to the error handler,
    before any route, when the restoring lookup fails. *)
Theorem session_survives C O1 O2 s b login u :
  find_fails O1 = false ->
  login_fails O1 = false ->
  body_email login <> "" ->
  body_password login <> "" ->
  List.find (by_email (body_email login)) (users s) = Some u ->
  bcrypt_compare C (body_password login) (User.password u) = true ->
  NoDup (map User._id (users s)) ->
  let after := visit C O1 POST_login login b s in
  session after.1.2 = Some (serializeUser u)
  /\ passport_session O2 after.1.2 after.2
     = (if find_fails O2 then done_restore_error StoreError
        else done_restored (Some u))
  /\ (visit C O2 GET_dashboard (plain "/dashboard" None "") after.1.2 after.2).1.1
     = (if find_fails O2 then NextError StoreError else Render "admin" []).
Proof.
  intros Hf Hl He Hp Hu Hc Hnd after.
  subst after. rewrite (login_success C O1 s b login u Hf Hl He Hp Hu Hc). simpl.
  apply find_by_email_sound in Hu as [Hin _].
  pose proof (deserialize_serialize O2 s [] u Hnd Hin) as Hback.
  unfold serializeUser in *.
  assert (Hrestore :
    passport_session O2 (mkBrowser (jar_redUrl b) (Some (User._id u))) s
    = (if find_fails O2 then done_restore_error StoreError
       else done_restored (Some u))).
  { unfold passport_session. simpl.
    destruct (deserializeUser O2 (User._id u) (mkMachine s [])) as [[d|e|e] m];
      simpl in Hback; try discriminate.
    now injection Hback as ->. }
  split; [reflexivity|]. split; [exact Hrestore|].
  unfold visit. rewrite Hrestore. destruct (find_fails O2); reflexivity.
Qed.

Lemma session_survives_witness :
  (visit sample_collab calm GET_dashboard (plain "/dashboard" None "")
     (visit sample_collab calm POST_login
        (form "/login" None "alice@example.com" "wonderland") nobody sample_store).1.2
     (visit sample_collab calm POST_login
        (form "/login" None "alice@example.com" "wonderland") nobody sample_store).2).1.1
  = Render "admin" []
  /\ (visit sample_collab find_down GET_dashboard (plain "/dashboard" None "")
        (visit sample_collab calm POST_login
           (form "/login" None "alice@example.com" "wonderland") nobody sample_store).1.2
        (visit sample_collab calm POST_login
           (form "/login" None "alice@example.com" "wonderland") nobody sample_store).2).1.1
     = NextError StoreError.
Proof.
  assert (Hnd : NoDup (map User._id (users sample_store)))
    by (apply (bool_decide_unpack (NoDup (map User._id (users sample_store))));
        reflexivity).
  split.
  - apply (session_survives sample_collab calm calm sample_store nobody
             (form "/login" None "alice@example.com" "wonderland") alice);
      try reflexivity; try discriminate; exact Hnd.
  - apply (session_survives sample_collab calm find_down sample_store nobody
             (form "/login" None "alice@example.com" "wonderland") alice);
      try reflexivity; try discriminate; exact Hnd.
Defined.

(** ** Store failures that are answered *)

(** The handlers with a [try] around their query answer a failed lookup
    with 500 and leave the store alone: the feed, the posts of an author,
    the edit submission without an upload, for a caller with a session the
    delete and the edit form, and the single-post view of a well-formed
    identifier. *)
Theorem lookup_failure_is_answered C O r req s :
  find_fails O = true ->
  match r with
  | GET_index | GET_posts_user => True
  | GET_delete | GET_post_edit => isAuthenticated req = true
  | GET_post => ObjectId_isValid C (params_id req) = true
  | POST_post_edit => file req = None
  | _ => False
  end ->
  (serve C O r req s).1 = Send 500 "Internal Server Error"
  /\ store (serve C O r req s).2 = s.
Proof.
  intros Hf Hr. destruct r; try contradiction; run.
  - destruct (user req); simpl; destruct (is_old req); now rewrite Hf.
  - unfold isAuthenticated in Hr. destruct (user req); [|discriminate]. simpl.
    case_castable; simpl; [now rewrite Hf | auto].
  - rewrite Hr. simpl. rewrite (castable_valid C s _ Hr). simpl. now rewrite Hf.
  - now rewrite Hf.
  - unfold isAuthenticated in Hr. destruct (user req); [|discriminate]. simpl.
    case_castable; simpl; [now rewrite Hf | auto].
  - rewrite Hr. simpl. case_castable; simpl; [now rewrite Hf | auto].
Qed.

Lemma lookup_failure_is_answered_witness :
  (serve sample_collab find_down GET_delete (plain "/delete/p1" (Some alice) "p1")
     sample_store).1 = Send 500 "Internal Server Error".
Proof.
  now destruct (lookup_failure_is_answered sample_collab find_down GET_delete
                  (plain "/delete/p1" (Some alice) "p1") sample_store eq_refl eq_refl).
Defined.

(** ** Who writes what *)

(** GET /delete/:id changes the store (a post or a blob) only for a caller
    with a session who is the author of the post found under the
    identifier. *)
Theorem delete_changes_only_for_author C O s req :
  store (serve C O GET_delete req s).2 <> s ->
  exists u p,
    user req = Some u
    /\ List.find (by_id (params_id req)) (posts s) = Some p
    /\ Post.authorId p = User._id u.
Proof.
  destruct (user req) as [u|] eqn:Hu.
  - destruct (List.find (by_id (params_id req)) (posts s)) as [p|] eqn:Hp.
    + destruct (String.eqb (Post.authorId p) (User._id u)) eqn:He.
      * intros _. exists u, p. apply String.eqb_eq in He. auto.
      * intros Hch. exfalso. apply Hch. run. rewrite Hu. simpl.
        case_castable; simpl; [|reflexivity].
        destruct (find_fails O); simpl; [reflexivity|]. now rewrite Hp, He.
    + intros Hch. exfalso. apply Hch. run. rewrite Hu. simpl.
      case_castable; simpl; [|reflexivity].
      destruct (find_fails O); simpl; [reflexivity|]. now rewrite Hp.
  - intros Hch. exfalso. apply Hch. run. now rewrite Hu.
Qed.

Lemma delete_changes_only_for_author_witness :
  exists u p,
    Some alice = Some u
    /\ List.find (by_id "p1") (posts sample_store) = Some p
    /\ Post.authorId p = User._id u.
Proof.
  apply (delete_changes_only_for_author sample_collab calm sample_store
           (plain "/delete/p1" (Some alice) "p1")).
  vm_compute. intros H. discriminate H.
Defined.

(** The users collection changes in one way only: POST /signup, sent
    without a session with an email no stored user has, appends one user
    with that email and the hash of the submitted password.  No route
    removes or rewrites a user. *)
Theorem only_signup_adds_users C O r req s :
  users (store (serve C O r req s).2) = users s
  \/ (r = POST_signup
      /\ user req = None
      /\ List.find (by_email (body_email req)) (users s) = None
      /\ users (store (serve C O r req s).2)
         = (users s
            ++ [User.mk (fresh_id O) (body_email req)
                  (bcrypt_hash C (body_password req))])%list).
Proof.
  destruct r; try (left; apply users_written_by_signup_only; discriminate).
  run. destruct (user req); simpl; [now left|].
  destruct (find_fails O); simpl; [now left|].
  destruct (validationResult (isEmail C) req) as [|msg rest]; simpl.
  - destruct (List.find (by_email (body_email req)) (users s)); simpl; [now left|].
    destruct (save_fails O); simpl; [now left|].
    destruct (has_user_id (fresh_id O) (users s)); simpl; [now left|].
    destruct (login_fails O); simpl; right; auto.
  - unfold_monad. simpl. rewrite req_flash_runs. now left.
Qed.

Lemma reachable_unique_emails_witness :
  map User.email
    (users
       (store (serve sample_collab (mkOracle false false false false "id-3" 3)
                 POST_signup (form "/signup" None "carol@example.com" "second-try")
                 (store (serve sample_collab
                           (mkOracle false false false false "id-2" 2)
                           POST_signup (form "/signup" None "dave@example.com" "long-enough")
                           (store (serve sample_collab
                                     (mkOracle false false false false "id-1" 1)
                                     POST_signup
                                     (form "/signup" None "carol@example.com"
                                        "rabbit-hole")
                                     (mkStore [] [] ∅)).2)).2)).2))
  = ["carol@example.com"; "dave@example.com"]
  /\ unique_emails
       (store (serve sample_collab (mkOracle false false false false "id-3" 3)
                 POST_signup (form "/signup" None "carol@example.com" "second-try")
                 (store (serve sample_collab
                           (mkOracle false false false false "id-2" 2)
                           POST_signup (form "/signup" None "dave@example.com" "long-enough")
                           (store (serve sample_collab
                                     (mkOracle false false false false "id-1" 1)
                                     POST_signup
                                     (form "/signup" None "carol@example.com"
                                        "rabbit-hole")
                                     (mkStore [] [] ∅)).2)).2)).2).
Proof.
  split; [reflexivity|].
  apply (reachable_unique_emails sample_collab).
  do 3 apply reachable_serve. apply reachable_empty.
Defined.

(** ** Identifiers stay unique *)

Lemma has_user_id_false id (l : list User.t) :
  has_user_id id l = false -> ~ In id (map User._id l).
Proof.
  unfold has_user_id. induction l as [|u l IH]; simpl; [tauto|].
  intros H [Hu|Hin]; apply orb_false_elim in H as [Hne Hl].
  - rewrite Hu, String.eqb_refl in Hne. discriminate.
  - now apply IH.
Qed.

Lemma has_post_id_false id (l : list Post.t) :
  has_post_id id l = false -> ~ In id (map Post._id l).
Proof.
  unfold has_post_id. induction l as [|p l IH]; simpl; [tauto|].
  intros H [Hp|Hin]; apply orb_false_elim in H as [Hne Hl].
  - unfold by_id in Hne. rewrite Hp, String.eqb_refl in Hne. discriminate.
  - now apply IH.
Qed.

Lemma NoDup_snoc {A} (l : list A) (x : A) : NoDup l -> ~ In x l -> NoDup (l ++ [x]).
Proof.
  intros Hnd Hx. apply NoDup_app. split; [exact Hnd|]. split; [|apply NoDup_singleton].
  intros y Hy Hin. apply list_elem_of_In in Hy. apply list_elem_of_singleton in Hin.
  congruence.
Qed.

Lemma remove_post_ids_in id (l : list Post.t) x :
  In x (map Post._id (remove_post id l)) -> In x (map Post._id l).
Proof.
  induction l as [|p l IH]; simpl; [tauto|].
  destruct (by_id id p); simpl; [tauto|]. intros [H|H]; [now left|right; now apply IH].
Qed.

Lemma remove_post_NoDup id (l : list Post.t) :
  NoDup (map Post._id l) -> NoDup (map Post._id (remove_post id l)).
Proof.
  induction l as [|p l IH]; simpl; [auto|].
  intros Hnd. apply NoDup_cons in Hnd as [Hp Hnd].
  destruct (by_id id p); simpl; [exact Hnd|].
  apply NoDup_cons. split; [|now apply IH].
  intros Hin. apply Hp. apply list_elem_of_In. apply list_elem_of_In in Hin.
  now apply (remove_post_ids_in id).
Qed.

(** Whatever one request does, no two users and no two posts end up under
    one identifier. *)
Lemma unique_ids_kept C O r req s :
  unique_ids s -> unique_ids (store (serve C O r req s).2).
Proof.
  intros [Hu Hp].
  destruct (read_only r) eqn:Hro.
  - destruct r; try discriminate; run; split_cases; now split.
  - destruct r; try discriminate; unfold unique_ids.
    + (* POST /signup *)
      run. destruct (user req); simpl; [auto|].
      destruct (find_fails O); simpl; [auto|].
      destruct (validationResult (isEmail C) req) as [|msg rest]; simpl.
      * destruct (List.find (by_email (body_email req)) (users s)); simpl; [auto|].
        destruct (save_fails O); simpl; [auto|].
        destruct (has_user_id (fresh_id O) (users s)) eqn:Hfresh; simpl; [auto|].
        apply has_user_id_false in Hfresh.
        destruct (login_fails O); simpl; rewrite map_app; split; auto;
          now apply NoDup_snoc.
      * unfold_monad. simpl. rewrite req_flash_runs. simpl. auto.
    + (* POST /post *)
      run. destruct (user req); simpl; [|auto].
      destruct (file req); simpl; [|auto].
      destruct (save_fails O); simpl; [auto|].
      destruct (has_post_id (fresh_id O) (posts s)) eqn:Hfresh; simpl; [auto|].
      apply has_post_id_false in Hfresh. rewrite map_app. split; auto.
      now apply NoDup_snoc.
    + (* GET /delete/:id *)
      run. destruct (user req); simpl; [|auto].
      case_castable; simpl; [|auto].
      destruct (find_fails O); simpl; [auto|].
      destruct (List.find (by_id (params_id req)) (posts s)) as [p|]; simpl; [|auto].
      destruct (negb (String.eqb (Post.authorId p) (User._id t)) && true); simpl; [auto|].
      destruct (bool_decide (Post.filename p ∈ blobs s)); simpl; [|auto].
      destruct (delete_fails O); simpl; auto using remove_post_NoDup.
    + (* POST /post/edit/:postId *)
      run. destruct (file req) as [f|]; simpl;
        (case_castable; simpl; [|auto]);
        (destruct (find_fails O); simpl; [auto|]);
        (destruct (List.find (by_id (params_id req)) (posts s)) as [p|]; simpl; [|auto]);
        (destruct (user req) as [u|]; simpl; [|auto]);
        (destruct (String.eqb (Post.authorId p) (User._id u)); simpl; [|auto]);
        (destruct (save_fails O); simpl; [auto|]);
        (destruct (has_post_id (Post._id p) (posts s)); simpl; [|auto]);
        split_cases; simpl; rewrite ?replace_post_ids; auto.
Qed.

Lemma reachable_unique_ids C s : reachable C s -> unique_ids s.
Proof.
  induction 1 as [|O r req s Hs IH].
  - split; apply NoDup_nil_2.
  - now apply unique_ids_kept.
Qed.
